(** * Signal warrant checker: the warrant evaluation engine of [app.py]

    A shallow embedding of the MUTCD threshold tables, the curve
    interpolator and the warrant evaluators of [app.py], with the
    properties of the engine stated and proved over it.

    Conventions of the embedding.
    - Python numbers (the volumes, thresholds and site scalars) are exact
      rationals [Q], lane counts are integers [Z]; the rounding of Python
      floats is not modelled.  Python's [==], [<], [<=] on numbers are
      [Qeq_bool], [Qltb], [Qle_bool], so "the same number" is [==] on [Q].
    - [a / b] is exact division and raises [ZeroDivisionError] on a zero
      divisor; indexing an empty list raises [IndexError]; a dictionary
      lookup of an absent key raises [KeyError]; formatting [None] with
      [:.0f] raises [TypeError].  Fallible code lives in the [exc] monad.
    - A pandas frame is the list of its rows, [None] is [None] of [option].
    - An f-string is kept as the list of its pieces, the numeric holes
      unrendered. *)

From Stdlib Require Import QArith List String Bool Arith Lia Lqa Permutation Sorted.
Import ListNotations.
Local Open Scope Q_scope.

(** ** Python exceptions and the error monad *)

Inductive pyerr : Type :=
| IndexError
| ZeroDivisionError
| KeyError
| TypeError
| ValueError.

Inductive exc (A : Type) : Type :=
| Ok (a : A)
| Raise (e : pyerr).
Arguments Ok {A} a.
Arguments Raise {A} e.

Definition bind {A B : Type} (m : exc A) (k : A -> exc B) : exc B :=
  match m with
  | Ok a => k a
  | Raise e => Raise e
  end.

Notation "x <- m ;; k" := (bind m (fun x => k))
  (at level 61, m at next level, right associativity).
Notation "' pat <- m ;; k" := (bind m (fun x => match x with pat => k end))
  (at level 61, pat pattern, m at next level, right associativity).

(** ** Numbers *)

Definition Qltb (a b : Q) : bool := negb (Qle_bool b a).
Definition Qgeb (a b : Q) : bool := Qle_bool b a.

(** [a / b] *)
Definition pydiv (a b : Q) : exc Q :=
  if Qeq_bool b 0 then Raise ZeroDivisionError else Ok (a / b).

(** ** Sequences *)

Definition point : Type := (Q * Q)%type.

(** [xs[i]] for [i >= 0] *)
Definition index {A : Type} (xs : list A) (i : nat) : exc A :=
  match nth_error xs i with
  | Some a => Ok a
  | None => Raise IndexError
  end.

(** [xs[-1]] *)
Definition index_last {A : Type} (xs : list A) : exc A :=
  match xs with
  | [] => Raise IndexError
  | a :: r => Ok (last r a)
  end.

(** [sorted(curve_points, key=lambda x: x[0])]: the stable sort by the first
    component, as a stable insertion sort. *)
Fixpoint insert_by_x (p : point) (l : list point) : list point :=
  match l with
  | [] => [p]
  | q :: r => if Qle_bool (fst p) (fst q) then p :: l else q :: insert_by_x p r
  end.

Definition sorted_by_x (l : list point) : list point :=
  fold_right insert_by_x [] l.

(** ** Curve interpolator *)

(** The guard [x1 <= major_vol < x2] of the segment loop. *)
Definition in_segment (x1 x2 major_vol : Q) : bool :=
  Qle_bool x1 major_vol && Qltb major_vol x2.

(** The body of [for i in range(len(points) - 1)], over the remaining
    indices; [None] when the loop ends without a [return]. *)
Fixpoint segment_loop (points : list point) (major_vol : Q) (idxs : list nat)
  : exc (option Q) :=
  match idxs with
  | [] => Ok None
  | i :: rest =>
      '(x1, y1) <- index points i ;;
      '(x2, y2) <- index points (i + 1) ;;
      if in_segment x1 x2 major_vol then
        slope <- pydiv (y2 - y1) (x2 - x1) ;;
        Ok (Some (y1 + slope * (major_vol - x1)))
      else segment_loop points major_vol rest
  end.

Definition interpolate_threshold (curve_points : list point) (major_vol : Q)
  : exc (option Q) :=
  let points := sorted_by_x curve_points in
  p0 <- index points 0 ;;
  if Qltb major_vol (fst p0) then Ok None else
  pl <- index_last points ;;
  if Qgeb major_vol (fst pl) then Ok (Some (snd pl)) else
  r <- segment_loop points major_vol (seq 0 (List.length points - 1)) ;;
  match r with
  | Some y => Ok (Some y)
  | None => pl' <- index_last points ;; Ok (Some (snd pl'))
  end.

(** ** MUTCD 2009 threshold data *)

Definition lane_key : Type := (Z * Z)%type.

Definition lane_key_eqb (a b : lane_key) : bool :=
  (fst a =? fst b)%Z && (snd a =? snd b)%Z.

(** [d[k]] on a dictionary kept as its list of items *)
Fixpoint lookup {K V : Type} (eqb : K -> K -> bool) (d : list (K * V)) (k : K)
  : exc V :=
  match d with
  | [] => Raise KeyError
  | (k', v) :: r => if eqb k' k then Ok v else lookup eqb r k
  end.

Definition WARRANT1_THRESHOLDS
  : list (string * list (lane_key * list (string * (Q * Q)))) :=
  [ ("condition_a"%string,
     [ ((1, 1)%Z, [("100"%string, (500, 150)); ("80"%string, (400, 120));
                   ("70"%string, (350, 105)); ("56"%string, (280, 84))]);
       ((2, 1)%Z, [("100"%string, (600, 150)); ("80"%string, (480, 120));
                   ("70"%string, (420, 105)); ("56"%string, (336, 84))]);
       ((2, 2)%Z, [("100"%string, (600, 200)); ("80"%string, (480, 160));
                   ("70"%string, (420, 140)); ("56"%string, (336, 112))]);
       ((1, 2)%Z, [("100"%string, (500, 200)); ("80"%string, (400, 160));
                   ("70"%string, (350, 140)); ("56"%string, (280, 112))]) ]);
    ("condition_b"%string,
     [ ((1, 1)%Z, [("100"%string, (750, 75)); ("80"%string, (600, 60));
                   ("70"%string, (525, 53)); ("56"%string, (420, 42))]);
       ((2, 1)%Z, [("100"%string, (900, 75)); ("80"%string, (720, 60));
                   ("70"%string, (630, 53)); ("56"%string, (504, 42))]);
       ((2, 2)%Z, [("100"%string, (900, 100)); ("80"%string, (720, 80));
                   ("70"%string, (630, 70)); ("56"%string, (504, 56))]);
       ((1, 2)%Z, [("100"%string, (750, 100)); ("80"%string, (600, 80));
                   ("70"%string, (525, 70)); ("56"%string, (420, 56))]) ]) ].

Definition WARRANT2_CURVES : list (string * list (lane_key * list point)) :=
  [ ("100"%string,
     [ ((1, 1)%Z, [(300, 115); (400, 100); (500, 90); (600, 80); (700, 70);
                   (800, 60); (900, 50); (1000, 40)]);
       ((2, 1)%Z, [(400, 115); (500, 100); (600, 90); (700, 80); (800, 70);
                   (900, 60); (1000, 50); (1100, 40)]);
       ((2, 2)%Z, [(400, 150); (500, 135); (600, 120); (700, 105); (800, 95);
                   (900, 85); (1000, 75); (1100, 65)]);
       ((1, 2)%Z, [(300, 150); (400, 135); (500, 120); (600, 105); (700, 95);
                   (800, 85); (900, 75); (1000, 65)]) ]);
    ("70"%string,
     [ ((1, 1)%Z, [(210, 80); (280, 70); (350, 63); (420, 56); (490, 49);
                   (560, 42); (630, 35); (700, 28)]);
       ((2, 1)%Z, [(280, 80); (350, 70); (420, 63); (490, 56); (560, 49);
                   (630, 42); (700, 35); (770, 28)]);
       ((2, 2)%Z, [(280, 105); (350, 95); (420, 84); (490, 74); (560, 67);
                   (630, 60); (700, 53); (770, 46)]);
       ((1, 2)%Z, [(210, 105); (280, 95); (350, 84); (420, 74); (490, 67);
                   (560, 60); (630, 53); (700, 46)]) ]) ].

Definition WARRANT3_CURVES : list (string * list (lane_key * list point)) :=
  [ ("100"%string,
     [ ((1, 1)%Z, [(400, 150); (500, 135); (600, 120); (700, 105); (800, 100);
                   (900, 100); (1000, 100)]);
       ((2, 1)%Z, [(500, 150); (600, 135); (700, 120); (800, 105); (900, 100);
                   (1000, 100); (1100, 100)]);
       ((2, 2)%Z, [(500, 200); (600, 180); (700, 160); (800, 150); (900, 150);
                   (1000, 150); (1100, 150)]);
       ((1, 2)%Z, [(400, 200); (500, 180); (600, 160); (700, 150); (800, 150);
                   (900, 150); (1000, 150)]) ]);
    ("70"%string,
     [ ((1, 1)%Z, [(280, 105); (350, 95); (420, 84); (490, 74); (560, 70);
                   (630, 70); (700, 70)]);
       ((2, 1)%Z, [(350, 105); (420, 95); (490, 84); (560, 74); (630, 70);
                   (700, 70); (770, 70)]);
       ((2, 2)%Z, [(350, 140); (420, 126); (490, 112); (560, 105); (630, 105);
                   (700, 105); (770, 105)]);
       ((1, 2)%Z, [(280, 140); (350, 126); (420, 112); (490, 105); (560, 105);
                   (630, 105); (700, 105)]) ]) ].

Definition WARRANT4_CURVES : list (string * list point) :=
  [ ("four_hour_100"%string,
     [(300, 190); (400, 150); (500, 130); (600, 115); (700, 107); (800, 100);
      (900, 100); (1000, 100)]);
    ("four_hour_70"%string,
     [(210, 133); (280, 105); (350, 91); (420, 81); (490, 75); (560, 70);
      (630, 70); (700, 70)]);
    ("peak_hour_100"%string,
     [(300, 380); (400, 300); (500, 260); (600, 230); (700, 214); (800, 200);
      (900, 200); (1000, 200)]);
    ("peak_hour_70"%string,
     [(210, 266); (280, 210); (350, 182); (420, 161); (490, 150); (560, 140);
      (630, 140); (700, 140)]) ].

Definition get_lane_key (major_lanes minor_lanes : Z) : lane_key :=
  let major := if (major_lanes =? 1)%Z then 1%Z else 2%Z in
  let minor := if (minor_lanes =? 1)%Z then 1%Z else 2%Z in
  (major, minor).

Definition get_threshold_percentage (speed population : Q)
  (is_combination : bool) : string :=
  let has_reduction := Qltb 40 speed || Qltb population 10000 in
  if is_combination then
    if has_reduction then "56"%string else "80"%string
  else
    if has_reduction then "70"%string else "100"%string.

(** ** Traffic series *)

(** One row of the hourly frame: the columns ['Hour'], ['Street 1 (vph)']
    and ['Street 2 (vph)']. *)
Record HourlyCount : Type := mkHour {
  Hour : string;
  Street_1_vph : Q;
  Street_2_vph : Q
}.

(** The two volume columns a role can name. *)
Inductive column : Type := Street_1 | Street_2.

(** [col.replace(' (vph)', '')] *)
Definition street_name (c : column) : string :=
  match c with
  | Street_1 => "Street 1"%string
  | Street_2 => "Street 2"%string
  end.

(** [row[col]] *)
Definition cell (row : HourlyCount) (c : column) : Q :=
  match c with
  | Street_1 => Street_1_vph row
  | Street_2 => Street_2_vph row
  end.

(** [traffic_df[col]] *)
Definition column_of (df : list HourlyCount) (c : column) : list Q :=
  map (fun row => cell row c) df.

(** [series.sum()] *)
Definition series_sum (xs : list Q) : Q := fold_left Qplus xs 0.

(** The major/minor assignment every volume warrant starts with:
    [if street1_total >= street2_total: major, minor = 'Street 1 (vph)', ...]. *)
Definition resolve_roles (df : list HourlyCount) : column * column :=
  let street1_total := series_sum (column_of df Street_1) in
  let street2_total := series_sum (column_of df Street_2) in
  if Qgeb street1_total street2_total then (Street_1, Street_2)
  else (Street_2, Street_1).

(** [major_vol >= thresh[0] and minor_vol >= thresh[1]] *)
Definition meets (thresh : Q * Q) (major_vol minor_vol : Q) : bool :=
  Qgeb major_vol (fst thresh) && Qgeb minor_vol (snd thresh).

(** [WARRANT1_THRESHOLDS[cond][lane_key][pct]] *)
Definition warrant1_threshold (cond : string) (lk : lane_key) (pct : string)
  : exc (Q * Q) :=
  by_lane <- lookup String.eqb WARRANT1_THRESHOLDS cond ;;
  by_pct <- lookup lane_key_eqb by_lane lk ;;
  lookup String.eqb by_pct pct.

(** [CURVES[pct][lane_key]] *)
Definition curve_for (curves : list (string * list (lane_key * list point)))
  (pct : string) (lk : lane_key) : exc (list point) :=
  by_lane <- lookup String.eqb curves pct ;;
  lookup lane_key_eqb by_lane lk.

(** ** Explanation strings *)

(** The pieces of an f-string: literal text and the holes, each hole with
    the value it prints. *)
Inductive piece : Type :=
| Lit (s : string)
| Hole_str (s : string)
| Hole_int (n : nat)
| Hole_num (q : Q)
| Hole_0f (q : Q).

Definition fstring : Type := list piece.

(** [f"{x:.0f}"] *)
Definition format_0f (x : option Q) : exc piece :=
  match x with
  | Some q => Ok (Hole_0f q)
  | None => Raise TypeError
  end.

(** Truth value of [x] where [x] is a number or [None]. *)
Definition truthy (x : option Q) : bool :=
  match x with
  | Some q => negb (Qeq_bool q 0)
  | None => false
  end.

(** [threshold is not None and vol >= threshold] *)
Definition above (threshold : option Q) (vol : Q) : bool :=
  match threshold with
  | Some t => Qgeb vol t
  | None => false
  end.

(** A loop whose body can raise. *)
Fixpoint foldM {A S : Type} (body : S -> A -> exc S) (l : list A) (s : S)
  : exc S :=
  match l with
  | [] => Ok s
  | a :: r => s' <- body s a ;; foldM body r s'
  end.

(** ** Warrant 1: eight-hour vehicular volume *)

Module W1.
Record hourly : Type := mkHourly {
  hour : string;
  major_vol : Q;
  minor_vol : Q;
  meets_a : bool;
  meets_b : bool;
  thresh_a : Q * Q;
  thresh_b : Q * Q
}.

Record result : Type := mkResult {
  met : option bool;
  condition : option string;
  hours_met : nat;
  details : fstring;
  threshold_used : option (string * (Q * Q) * (Q * Q));
  hourly_results : option (list hourly);
  major_street : option string;
  minor_street : option string
}.

(** The counters and the list the loop updates. *)
Record tally : Type := mkTally {
  hours_a : nat;
  hours_b : nat;
  hours_a_combo : nat;
  hours_b_combo : nat;
  rows : list hourly
}.
End W1.

Definition bump (b : bool) (n : nat) : nat := if b then (n + 1)%nat else n.

Definition warrant1_body (thresh_a thresh_b thresh_a_combo thresh_b_combo : Q * Q)
  (major_col minor_col : column) (t : W1.tally) (row : HourlyCount) : W1.tally :=
  let major_vol := cell row major_col in
  let minor_vol := cell row minor_col in
  let meets_a := meets thresh_a major_vol minor_vol in
  let meets_b := meets thresh_b major_vol minor_vol in
  let meets_a_combo := meets thresh_a_combo major_vol minor_vol in
  let meets_b_combo := meets thresh_b_combo major_vol minor_vol in
  W1.mkTally
    (bump meets_a (W1.hours_a t))
    (bump meets_b (W1.hours_b t))
    (bump meets_a_combo (W1.hours_a_combo t))
    (bump meets_b_combo (W1.hours_b_combo t))
    (W1.rows t ++
       [W1.mkHourly (Hour row) major_vol minor_vol meets_a meets_b
          thresh_a thresh_b]).

Definition evaluate_warrant1 (traffic_df : option (list HourlyCount))
  (major_lanes minor_lanes : Z) (speed population : Q) : exc W1.result :=
  match traffic_df with
  | None =>
      Ok (W1.mkResult None None 0
            [Lit "Insufficient data (need at least 8 hours)"] None None None None)
  | Some df =>
      if (List.length df <? 8)%nat then
        Ok (W1.mkResult None None 0
              [Lit "Insufficient data (need at least 8 hours)"] None None None None)
      else
        let lane_key := get_lane_key major_lanes minor_lanes in
        let pct := get_threshold_percentage speed population false in
        let pct_combo := get_threshold_percentage speed population true in
        thresh_a <- warrant1_threshold "condition_a" lane_key pct ;;
        thresh_b <- warrant1_threshold "condition_b" lane_key pct ;;
        thresh_a_combo <- warrant1_threshold "condition_a" lane_key pct_combo ;;
        thresh_b_combo <- warrant1_threshold "condition_b" lane_key pct_combo ;;
        let '(major_col, minor_col) := resolve_roles df in
        let t :=
          fold_left
            (warrant1_body thresh_a thresh_b thresh_a_combo thresh_b_combo
               major_col minor_col)
            df (W1.mkTally 0 0 0 0 []) in
        let hours_a := W1.hours_a t in
        let hours_b := W1.hours_b t in
        let hours_a_combo := W1.hours_a_combo t in
        let hours_b_combo := W1.hours_b_combo t in
        let finish met condition hours_met details :=
          W1.mkResult (Some met) condition hours_met details
            (Some (pct, thresh_a, thresh_b)) (Some (W1.rows t))
            (Some (street_name major_col)) (Some (street_name minor_col)) in
        if (8 <=? hours_a)%nat then
          Ok (finish true (Some "A"%string) hours_a
                [Lit "Condition A MET: "; Hole_int hours_a;
                 Lit " hours meet threshold ("; Hole_str pct; Lit "%)"])
        else if (8 <=? hours_b)%nat then
          Ok (finish true (Some "B"%string) hours_b
                [Lit "Condition B MET: "; Hole_int hours_b;
                 Lit " hours meet threshold ("; Hole_str pct; Lit "%)"])
        else if (8 <=? hours_a_combo)%nat && (8 <=? hours_b_combo)%nat then
          Ok (finish true (Some "A+B"%string)
                (Nat.min hours_a_combo hours_b_combo)
                [Lit "Combination A+B MET: Both conditions meet ";
                 Hole_str pct_combo; Lit "% threshold for 8+ hours"])
        else
          Ok (finish false None (Nat.max hours_a hours_b)
                [Lit "NOT MET: Condition A ("; Hole_int hours_a;
                 Lit "/8 hrs), Condition B ("; Hole_int hours_b;
                 Lit "/8 hrs)"])
  end.

(** The tier of Warrants 2, 3 and 7:
    ['70' if (speed > 40 or population < 10000) else '100']. *)
Definition curve_pct (speed population : Q) : string :=
  if Qltb 40 speed || Qltb population 10000 then "70"%string else "100"%string.

(** ** Warrant 2: four-hour vehicular volume *)

Module W2.
Record hourly : Type := mkHourly {
  hour : string;
  major_vol : Q;
  minor_vol : Q;
  threshold : option Q;
  above_curve : bool
}.

Record result : Type := mkResult {
  met : option bool;
  hours_met : nat;
  details : fstring;
  hourly_results : option (list hourly);
  curve_points : option (list point);
  pct : option string;
  major_street : option string;
  minor_street : option string
}.
End W2.

Definition warrant2_body (curve_points : list point) (major_col minor_col : column)
  (st : nat * list W2.hourly) (row : HourlyCount) : exc (nat * list W2.hourly) :=
  let '(hours_above, hourly_results) := st in
  let major_vol := cell row major_col in
  let minor_vol := cell row minor_col in
  threshold <- interpolate_threshold curve_points major_vol ;;
  let above_curve := above threshold minor_vol in
  Ok (bump above_curve hours_above,
      hourly_results ++
        [W2.mkHourly (Hour row) major_vol minor_vol threshold above_curve]).

Definition evaluate_warrant2 (traffic_df : option (list HourlyCount))
  (major_lanes minor_lanes : Z) (speed population : Q) : exc W2.result :=
  let insufficient :=
    W2.mkResult None 0 [Lit "Insufficient data (need at least 4 hours)"]
      None None None None None in
  match traffic_df with
  | None => Ok insufficient
  | Some df =>
      if (List.length df <? 4)%nat then Ok insufficient
      else
        let lane_key := get_lane_key major_lanes minor_lanes in
        let pct := curve_pct speed population in
        curve_points <- curve_for WARRANT2_CURVES pct lane_key ;;
        let '(major_col, minor_col) := resolve_roles df in
        '(hours_above, hourly_results) <-
          foldM (warrant2_body curve_points major_col minor_col) df (0%nat, []) ;;
        Ok (W2.mkResult (Some (4 <=? hours_above)%nat) hours_above
              [Hole_str (if (4 <=? hours_above)%nat then "MET" else "NOT MET");
               Lit ": "; Hole_int hours_above; Lit "/4 hours above curve (";
               Hole_str pct; Lit "%)"]
              (Some hourly_results) (Some curve_points) (Some pct)
              (Some (street_name major_col)) (Some (street_name minor_col)))
  end.

(** ** Warrant 3: peak hour *)

Module W3.
Record result : Type := mkResult {
  met : option bool;
  peak_hour : option string;
  peak_major : option Q;
  peak_minor : option Q;
  threshold : option Q;
  details : fstring;
  curve_points : option (list point);
  pct : option string;
  major_street : option string;
  minor_street : option string
}.
End W3.

(** The scan behind [series.idxmax()]: a later value replaces the running
    maximum only when strictly larger, so the first occurrence wins. *)
Fixpoint idxmax_from (xs : list Q) (i best_i : nat) (best : Q) : nat :=
  match xs with
  | [] => best_i
  | x :: r =>
      if Qltb best x then idxmax_from r (S i) i x
      else idxmax_from r (S i) best_i best
  end.

(** [series.idxmax()] on the default integer index *)
Definition idxmax (xs : list Q) : exc nat :=
  match xs with
  | [] => Raise ValueError
  | x :: r => Ok (idxmax_from r 1 0 x)
  end.

(** [traffic_df[major_col] + traffic_df[minor_col]] *)
Definition totals (df : list HourlyCount) (major_col minor_col : column)
  : list Q :=
  map (fun row => cell row major_col + cell row minor_col) df.

Definition evaluate_warrant3 (traffic_df : option (list HourlyCount))
  (major_lanes minor_lanes : Z) (speed population : Q) : exc W3.result :=
  let insufficient :=
    W3.mkResult None None None None None [Lit "Insufficient data"]
      None None None None in
  match traffic_df with
  | None => Ok insufficient
  | Some df =>
      if (List.length df <? 1)%nat then Ok insufficient
      else
        let lane_key := get_lane_key major_lanes minor_lanes in
        let pct := curve_pct speed population in
        curve_points <- curve_for WARRANT3_CURVES pct lane_key ;;
        let '(major_col, minor_col) := resolve_roles df in
        peak_idx <- idxmax (totals df major_col minor_col) ;;
        peak_row <- index df peak_idx ;;
        let peak_major := cell peak_row major_col in
        let peak_minor := cell peak_row minor_col in
        let peak_hour := Hour peak_row in
        threshold <- interpolate_threshold curve_points peak_major ;;
        let above_curve := above threshold peak_minor in
        detail_str <-
          (if truthy threshold then
             t <- format_0f threshold ;;
             Ok [Hole_str (if above_curve then "MET" else "NOT MET");
                 Lit ": Peak hour ("; Hole_str peak_hour; Lit ") - ";
                 Hole_0f peak_minor; Lit " vph vs "; t;
                 Lit " vph threshold ("; Hole_str pct; Lit "%)"]
           else Ok [Lit "NOT MET: Major volume below curve range"]) ;;
        Ok (W3.mkResult (Some above_curve) (Some peak_hour) (Some peak_major)
              (Some peak_minor) threshold detail_str (Some curve_points)
              (Some pct) (Some (street_name major_col))
              (Some (street_name minor_col)))
  end.

(** ** Warrant 4: pedestrian volume *)

Module W4.
Record result : Type := mkResult {
  met : option bool;
  details : fstring;
  criterion : option string;
  four_hour_met : bool;
  peak_hour_met : bool;
  four_hour_threshold : option Q;
  peak_hour_threshold : option Q;
  pct : option string;
  gaps_per_hour : option Q
}.
End W4.

(** Descending stable insertion, for [nlargest]. *)
Fixpoint insert_desc (x : Q) (l : list Q) : list Q :=
  match l with
  | [] => [x]
  | y :: r => if Qle_bool y x then x :: l else y :: insert_desc x r
  end.

(** [traffic_df.nlargest(n, col)[col]] *)
Definition nlargest (n : nat) (xs : list Q) : list Q :=
  firstn n (fold_right insert_desc [] xs).

(** [series.mean()] of a series with at least one value. *)
Definition mean (xs : list Q) : exc Q :=
  pydiv (series_sum xs) (inject_Z (Z.of_nat (List.length xs))).

(** [series.max()] of a series with at least one value. *)
Definition series_max (xs : list Q) : exc Q :=
  match xs with
  | [] => Raise ValueError
  | x :: r => Ok (fold_left (fun m y => if Qltb m y then y else m) r x)
  end.

(** The tier of Warrant 4:
    [use_70 = speed > 35 or population < 10000], ['70' if use_70 else '100']. *)
Definition warrant4_pct (speed population : Q) : string :=
  let use_70 := Qltb 35 speed || Qltb population 10000 in
  if use_70 then "70"%string else "100"%string.

Definition evaluate_warrant4 (traffic_df : option (list HourlyCount))
  (speed population ped_peak ped_4hr gaps_per_hour dist_to_signal : Q)
  : exc W4.result :=
  if Qltb dist_to_signal 300 then
    Ok (W4.mkResult (Some false)
          [Lit "NOT MET: Distance to nearest signal < 300 ft"]
          None false false None None None None)
  else
    let gaps_ok := Qltb gaps_per_hour 60 in
    if negb gaps_ok then
      Ok (W4.mkResult (Some false)
            [Lit "NOT MET: Adequate gaps ("; Hole_num gaps_per_hour;
             Lit "/hr) >= 60 required maximum"]
            None false false None None None None)
    else
      let pct := warrant4_pct speed population in
      four_hour_curve <-
        lookup String.eqb WARRANT4_CURVES (String.append "four_hour_" pct) ;;
      peak_hour_curve <-
        lookup String.eqb WARRANT4_CURVES (String.append "peak_hour_" pct) ;;
      let insufficient :=
        W4.mkResult None [Lit "Insufficient traffic data"]
          None false false None None None None in
      match traffic_df with
      | None => Ok insufficient
      | Some df =>
          if (List.length df <? 1)%nat then Ok insufficient
          else
            let street1_total := series_sum (column_of df Street_1) in
            let street2_total := series_sum (column_of df Street_2) in
            let major_col :=
              if Qgeb street1_total street2_total then Street_1 else Street_2 in
            top_4_major <- mean (nlargest 4 (column_of df major_col)) ;;
            four_hr_threshold <- interpolate_threshold four_hour_curve top_4_major ;;
            let four_hour_met := above four_hr_threshold ped_4hr in
            peak_major <- series_max (column_of df major_col) ;;
            peak_hr_threshold <- interpolate_threshold peak_hour_curve peak_major ;;
            let peak_hour_met := above peak_hr_threshold ped_peak in
            let met := four_hour_met || peak_hour_met in
            '(details, criterion) <-
              (if met then
                 let criterion :=
                   if four_hour_met then "Four-Hour"%string
                   else "Peak Hour"%string in
                 if four_hour_met then
                   t <- format_0f four_hr_threshold ;;
                   Ok ([Lit "MET ("; Hole_str criterion; Lit "): ";
                        Hole_num ped_4hr; Lit " peds/hr vs "; t;
                        Lit " threshold ("; Hole_str pct; Lit "%)"],
                       Some criterion)
                 else
                   t <- format_0f peak_hr_threshold ;;
                   Ok ([Lit "MET ("; Hole_str criterion; Lit "): ";
                        Hole_num ped_peak; Lit " peds/hr vs "; t;
                        Lit " threshold ("; Hole_str pct; Lit "%)"],
                       Some criterion)
               else
                 four_hr_str <-
                   (if truthy four_hr_threshold then format_0f four_hr_threshold
                    else Ok (Lit "N/A")) ;;
                 peak_hr_str <-
                   (if truthy peak_hr_threshold then format_0f peak_hr_threshold
                    else Ok (Lit "N/A")) ;;
                 Ok ([Lit "NOT MET: 4-hr ("; Hole_num ped_4hr; Lit " vs ";
                      four_hr_str; Lit "), Peak ("; Hole_num ped_peak;
                      Lit " vs "; peak_hr_str; Lit ") ("; Hole_str pct;
                      Lit "%)"],
                     None)) ;;
            Ok (W4.mkResult (Some met) details criterion four_hour_met
                  peak_hour_met four_hr_threshold peak_hr_threshold
                  (Some pct) (Some gaps_per_hour))
      end.

(** ** Warrant 7: crash experience *)

Module W7.
Record hourly : Type := mkHourly {
  hour : string;
  major_vol : Q;
  minor_vol : Q;
  meets_w1_a : bool;
  meets_w1_b : bool;
  meets_w3 : bool;
  meets_volume : bool;
  w3_threshold : option Q
}.

Record result : Type := mkResult {
  met : option bool;
  details : fstring;
  condition_a : bool;
  condition_b : bool;
  condition_c : bool;
  correctable_crashes : Q;
  hours_meeting_volume : nat;
  hourly_results : option (list hourly);
  curve_points : option (list point);
  pct : option string
}.
End W7.

(** The three volume tests of one hour, in the order the loop makes them. *)
Definition warrant7_hour (thresh_a_80 thresh_b_80 : Q * Q)
  (curve_points : list point) (major_col minor_col : column)
  (row : HourlyCount) : exc W7.hourly :=
  let major_vol := cell row major_col in
  let minor_vol := cell row minor_col in
  let meets_w1_a := meets thresh_a_80 major_vol minor_vol in
  let meets_w1_b := meets thresh_b_80 major_vol minor_vol in
  w3_threshold <- interpolate_threshold curve_points major_vol ;;
  let meets_w3 := above w3_threshold minor_vol in
  let meets_volume := meets_w1_a || meets_w1_b || meets_w3 in
  Ok (W7.mkHourly (Hour row) major_vol minor_vol meets_w1_a meets_w1_b
        meets_w3 meets_volume w3_threshold).

Definition warrant7_body (thresh_a_80 thresh_b_80 : Q * Q)
  (curve_points : list point) (major_col minor_col : column)
  (st : nat * list W7.hourly) (row : HourlyCount) : exc (nat * list W7.hourly) :=
  let '(hours_meeting_volume, hourly_results) := st in
  h <- warrant7_hour thresh_a_80 thresh_b_80 curve_points major_col minor_col row ;;
  Ok (bump (W7.meets_volume h) hours_meeting_volume, hourly_results ++ [h]).

Definition evaluate_warrant7 (traffic_df : option (list HourlyCount))
  (major_lanes minor_lanes : Z) (speed population correctable_crashes : Q)
  (alternatives_tried : bool) : exc W7.result :=
  if negb alternatives_tried then
    Ok (W7.mkResult (Some false)
          [Lit "NOT MET: Adequate trial of alternatives not documented"]
          false false false correctable_crashes 0 None None None)
  else if Qltb correctable_crashes 5 then
    Ok (W7.mkResult (Some false)
          [Lit "NOT MET: "; Hole_num correctable_crashes;
           Lit " correctable crashes < 5 required (12-month period)"]
          true false false correctable_crashes 0 None None None)
  else
    let insufficient :=
      W7.mkResult (Some false)
        [Lit "NOT MET: Insufficient traffic data for volume analysis"]
        true true false correctable_crashes 0 None None None in
    match traffic_df with
    | None => Ok insufficient
    | Some df =>
        if (List.length df <? 8)%nat then Ok insufficient
        else
          let lane_key := get_lane_key major_lanes minor_lanes in
          thresh_a_80 <- warrant1_threshold "condition_a" lane_key "80" ;;
          thresh_b_80 <- warrant1_threshold "condition_b" lane_key "80" ;;
          let pct := curve_pct speed population in
          curve_points <- curve_for WARRANT3_CURVES pct lane_key ;;
          let '(major_col, minor_col) := resolve_roles df in
          '(hours_meeting_volume, hourly_results) <-
            foldM (warrant7_body thresh_a_80 thresh_b_80 curve_points
                     major_col minor_col) df (0%nat, []) ;;
          let condition_c_met := (8 <=? hours_meeting_volume)%nat in
          if condition_c_met then
            Ok (W7.mkResult (Some true)
                  [Lit "MET: "; Hole_num correctable_crashes;
                   Lit " crashes, alternatives tried, ";
                   Hole_int hours_meeting_volume; Lit "/8 hrs volume"]
                  true true true correctable_crashes hours_meeting_volume
                  (Some hourly_results) (Some curve_points) (Some pct))
          else
            Ok (W7.mkResult (Some false)
                  [Lit "NOT MET: Volume requirement - only ";
                   Hole_int hours_meeting_volume;
                   Lit "/8 hours meet threshold"]
                  true true false correctable_crashes hours_meeting_volume
                  (Some hourly_results) (Some curve_points) (Some pct))
    end.

(** ** Warrant 5: school crossing *)

Module W5.
Record result : Type := mkResult {
  met : option bool;
  details : fstring;
  children : Q;
  gaps : Q
}.
End W5.

Definition evaluate_warrant5 (school_crossing : bool)
  (school_children school_gaps crossing_period_minutes : Q) : W5.result :=
  if negb school_crossing then
    W5.mkResult None [Lit "No school crossing designated"]
      school_children school_gaps
  else if Qltb school_children 20 then
    W5.mkResult (Some false)
      [Lit "NOT MET: "; Hole_num school_children;
       Lit " schoolchildren < 20 minimum"]
      school_children school_gaps
  else
    let gaps_ok := Qltb school_gaps crossing_period_minutes in
    if gaps_ok then
      W5.mkResult (Some true)
        [Lit "MET: "; Hole_num school_children; Lit " children, ";
         Hole_num school_gaps; Lit " gaps < ";
         Hole_num crossing_period_minutes; Lit " min period"]
        school_children school_gaps
    else
      W5.mkResult (Some false)
        [Lit "NOT MET: "; Hole_num school_gaps; Lit " adequate gaps >= ";
         Hole_num crossing_period_minutes; Lit " min crossing period"]
        school_children school_gaps.

(** The call with [crossing_period_minutes] left to its default, [30]. *)
Definition evaluate_warrant5_default (school_crossing : bool)
  (school_children school_gaps : Q) : W5.result :=
  evaluate_warrant5 school_crossing school_children school_gaps 30.

(** ** Warrant 6: coordinated signal system *)

Module W6.
Record result : Type := mkResult {
  met : option bool;
  details : fstring;
  signal_spacing : Q;
  progression_speed : Q;
  engineering_judgment : option bool
}.
End W6.

Definition evaluate_warrant6 (coordinated_system : bool)
  (signal_spacing progression_speed : Q) : W6.result :=
  if negb coordinated_system then
    W6.mkResult None [Lit "Not part of coordinated system"]
      signal_spacing progression_speed None
  else
    let min_spacing := 1000 in
    let max_spacing := 2640 in
    let spacing_ok :=
      Qle_bool min_spacing signal_spacing
      && Qle_bool signal_spacing max_spacing in
    if spacing_ok then
      W6.mkResult (Some true)
        [Lit "MET: "; Hole_num signal_spacing; Lit " ft spacing within ";
         Hole_num min_spacing; Lit "-"; Hole_num max_spacing; Lit " ft range"]
        signal_spacing progression_speed (Some true)
    else
      W6.mkResult (Some false)
        [Lit "NOT MET: "; Hole_num signal_spacing; Lit " ft spacing outside ";
         Hole_num min_spacing; Lit "-"; Hole_num max_spacing; Lit " ft range"]
        signal_spacing progression_speed (Some true).

(** ** Warrant 8: roadway network *)

Module W8.
Record result : Type := mkResult {
  met : option bool;
  details : fstring;
  route_designation : bool;
  future_volumes : bool;
  engineering_judgment : bool
}.
End W8.

Definition evaluate_warrant8 (network_continuity route_designation
  future_volumes : bool) : W8.result :=
  if negb network_continuity then
    W8.mkResult None [Lit "Network continuity not applicable"]
      route_designation future_volumes true
  else if route_designation && future_volumes then
    W8.mkResult (Some true)
      [Lit "MET: Route designation confirmed, projected volumes support installation"]
      route_designation future_volumes true
  else if route_designation then
    W8.mkResult (Some false)
      [Lit "NOT MET: Route designated but projected volumes insufficient"]
      route_designation future_volumes true
  else
    W8.mkResult (Some false)
      [Lit "NOT MET: Not on designated route network"]
      route_designation future_volumes true.

(** ** Warrant 9: intersection near a grade crossing *)

Module W9.
Record result : Type := mkResult {
  met : option bool;
  details : fstring;
  train_frequency : Q;
  queuing_distance : Q;
  preemption_needed : bool
}.
End W9.

Definition evaluate_warrant9 (railroad_crossing : bool)
  (train_frequency queuing_distance : Q) (preemption_needed : bool)
  : W9.result :=
  if negb railroad_crossing then
    W9.mkResult None [Lit "No railroad grade crossing nearby"]
      train_frequency queuing_distance preemption_needed
  else if Qltb 140 queuing_distance then
    W9.mkResult (Some false)
      [Lit "NOT MET: Distance ("; Hole_num queuing_distance;
       Lit " ft) exceeds 140 ft maximum"]
      train_frequency queuing_distance preemption_needed
  else if Qltb 0 train_frequency && preemption_needed then
    W9.mkResult (Some true)
      [Lit "MET: "; Hole_num train_frequency; Lit " trains/day, ";
       Hole_num queuing_distance; Lit " ft from crossing, preemption required"]
      train_frequency queuing_distance preemption_needed
  else
    W9.mkResult (Some false)
      [Lit "NOT MET: Insufficient train activity or preemption not needed"]
      train_frequency queuing_distance preemption_needed.

(** ** Status column of the summary table *)

(** [needle in hay] on strings *)
Fixpoint contains (needle hay : string) : bool :=
  if String.prefix needle hay then true
  else match hay with
       | EmptyString => false
       | String _ rest => contains needle rest
       end.

(** [get_status(result)] of [render_results]; [result] is [None] or a
    verdict, seen through [result.get('met')]. *)
Definition get_status (result : option (option bool)) : string :=
  match result with
  | None => "—"%string
  | Some met =>
      match met with
      | None => "—"%string
      | Some true => "✓ MET"%string
      | Some false => "✗ NOT MET"%string
      end
  end.

(** [sum(1 for s in statuses if '✓' in s)] *)
Definition met_count (statuses : list string) : nat :=
  List.length (filter (contains "✓") statuses).

(** ** Notions the properties are stated with *)

(** Number of rows of [df] on which [test] holds. *)
Definition count_hours (test : HourlyCount -> bool) (df : list HourlyCount)
  : nat :=
  List.length (filter test df).

(** The hour [row] meets the pair [thresh] under the roles [(major, minor)]. *)
Definition hour_meets (thresh : Q * Q) (roles : column * column)
  (row : HourlyCount) : bool :=
  meets thresh (cell row (fst roles)) (cell row (snd roles)).

(** The hour [row] lies on or above [curve]: the threshold interpolated at
    its major volume exists and its minor volume reaches it. *)
Definition hour_above_curve (curve : list point) (roles : column * column)
  (row : HourlyCount) : bool :=
  match interpolate_threshold curve (cell row (fst roles)) with
  | Ok threshold => above threshold (cell row (snd roles))
  | Raise _ => false
  end.

(** The volume test of Warrant 7 on one hour. *)
Definition warrant7_volume_hour (thresh_a_80 thresh_b_80 : Q * Q)
  (curve : list point) (roles : column * column) (row : HourlyCount) : bool :=
  hour_meets thresh_a_80 roles row || hour_meets thresh_b_80 roles row
  || hour_above_curve curve roles row.

(** The series is missing or has fewer than [n] rows. *)
Definition short_of (n : nat) (traffic_df : option (list HourlyCount)) : Prop :=
  match traffic_df with
  | None => True
  | Some df => (List.length df < n)%nat
  end.

(** The verdict says met: [result] is a verdict and its [met] is [True]. *)
Definition is_met (result : option (option bool)) : bool :=
  match result with
  | Some (Some true) => true
  | _ => false
  end.

(** The same row with the two streets exchanged. *)
Definition swap_streets (row : HourlyCount) : HourlyCount :=
  mkHour (Hour row) (Street_2_vph row) (Street_1_vph row).

(** Ascending first components, strictly and weakly. *)
Definition strictly_increasing_x (curve : list point) : Prop :=
  StronglySorted (fun p q => fst p < fst q) curve.

Definition ascending_x (curve : list point) : Prop :=
  StronglySorted (fun p q => fst p <= fst q) curve.

(** Second components never go up along the list. *)
Definition nonincreasing_y (curve : list point) : Prop :=
  StronglySorted (fun p q => snd q <= snd p) curve.

(** The interpolator on points already in ascending order, at a volume not
    below the first point: walk to the segment that holds the volume. *)
Fixpoint walk (x1 y1 : Q) (rest : list point) (v : Q) : Q :=
  match rest with
  | [] => y1
  | (x2, y2) :: rest' =>
      if Qltb v x2 then y1 + (y2 - y1) / (x2 - x1) * (v - x1)
      else walk x2 y2 rest' v
  end.

(** What the curve tables hold under every key:
    strictly increasing x, y never going up, y at least [lo]. *)
Definition good_curve (lo : Q) (c : list point) : Prop :=
  c <> [] /\ strictly_increasing_x c /\ nonincreasing_y c
  /\ Forall (fun p => lo <= snd p) c.

Ltac good_curve_tac :=
  split; [discriminate|];
  split; [repeat constructor|];
  split; [repeat constructor; vm_compute; discriminate|];
  repeat constructor; vm_compute; discriminate.

(** Discharges the side conditions of a comparison of two literal curves,
    once [lem] has reduced the comparison to them. *)
Ltac compare_curves lem :=
  apply lem;
  [ repeat constructor
  | repeat constructor; vm_compute; discriminate
  | good_curve_tac
  | vm_compute; discriminate
  | vm_compute; discriminate ].

(** Case analysis on membership in a literal list of keys. *)
Ltac each_key H :=
  repeat (destruct H as [<-|H]; [|]); try destruct H.

(** * Properties *)

(** ** Comparisons *)

Lemma Qltb_lt (a b : Q) : Qltb a b = true <-> a < b.
Proof.
  unfold Qltb. rewrite negb_true_iff.
  split; intro H.
  - apply Qnot_le_lt. intro Hle. apply Qle_bool_iff in Hle. congruence.
  - destruct (Qle_bool b a) eqn:E; [|reflexivity].
    apply Qle_bool_iff in E. lra.
Qed.

Lemma Qltb_ge (a b : Q) : Qltb a b = false <-> b <= a.
Proof.
  unfold Qltb. rewrite negb_false_iff. apply Qle_bool_iff.
Qed.

Lemma Qgeb_le (a b : Q) : Qgeb a b = true <-> b <= a.
Proof. apply Qle_bool_iff. Qed.

Lemma Qgeb_lt (a b : Q) : Qgeb a b = false <-> a < b.
Proof.
  unfold Qgeb. split; intro H.
  - apply Qnot_le_lt. intro Hle. apply Qle_bool_iff in Hle. congruence.
  - destruct (Qle_bool b a) eqn:E; [|reflexivity].
    apply Qle_bool_iff in E. lra.
Qed.

Lemma Qle_bool_false (a b : Q) : Qle_bool a b = false <-> b < a.
Proof. apply (Qgeb_lt b a). Qed.

Lemma meets_iff (thresh : Q * Q) (major_vol minor_vol : Q) :
  meets thresh major_vol minor_vol = true
  <-> fst thresh <= major_vol /\ snd thresh <= minor_vol.
Proof.
  unfold meets. rewrite andb_true_iff, !Qgeb_le. tauto.
Qed.

Lemma pydiv_ok (a b : Q) : ~ b == 0 -> pydiv a b = Ok (a / b).
Proof.
  intro H. unfold pydiv.
  destruct (Qeq_bool b 0) eqn:E; [|reflexivity].
  apply Qeq_bool_iff in E. contradiction.
Qed.

(** ** The sort *)

Lemma insert_by_x_perm (p : point) (l : list point) :
  Permutation (insert_by_x p l) (p :: l).
Proof.
  induction l as [|q r IH]; simpl.
  - apply Permutation_refl.
  - destruct (Qle_bool (fst p) (fst q)).
    + apply Permutation_refl.
    + eapply perm_trans; [apply perm_skip, IH | apply perm_swap].
Qed.

Lemma sorted_by_x_perm (l : list point) : Permutation (sorted_by_x l) l.
Proof.
  induction l as [|p l IH]; simpl.
  - constructor.
  - eapply perm_trans; [apply insert_by_x_perm | apply perm_skip, IH].
Qed.

Lemma sorted_by_x_in (l : list point) (p : point) :
  In p (sorted_by_x l) <-> In p l.
Proof.
  split; apply Permutation_in;
    [apply sorted_by_x_perm | apply Permutation_sym, sorted_by_x_perm].
Qed.

Lemma insert_by_x_ascending (p : point) (l : list point) :
  ascending_x l -> ascending_x (insert_by_x p l).
Proof.
  unfold ascending_x.
  induction l as [|q r IH]; intro Hs; simpl.
  - constructor; constructor.
  - inversion Hs as [|? ? Hr Hq]; subst.
    destruct (Qle_bool (fst p) (fst q)) eqn:E.
    + apply Qle_bool_iff in E.
      constructor; [assumption|].
      constructor; [assumption|].
      eapply Forall_impl; [|exact Hq].
      intros a Ha. simpl in Ha. lra.
    + apply Qle_bool_false in E.
      constructor; [apply IH; assumption|].
      apply Forall_forall. intros a Ha.
      apply (Permutation_in _ (insert_by_x_perm p r)) in Ha.
      destruct Ha as [<-|Ha]; [lra|].
      rewrite Forall_forall in Hq. apply Hq, Ha.
Qed.

Lemma sorted_by_x_ascending (l : list point) : ascending_x (sorted_by_x l).
Proof.
  induction l as [|p l IH]; simpl.
  - constructor.
  - apply insert_by_x_ascending, IH.
Qed.

(** A list already in ascending order is left as it is. *)
Lemma sorted_by_x_fixed (l : list point) : ascending_x l -> sorted_by_x l = l.
Proof.
  unfold ascending_x.
  induction l as [|p l IH]; intro Hs; simpl; [reflexivity|].
  inversion Hs as [|? ? Hl Hp]; subst.
  rewrite (IH Hl).
  destruct l as [|q r]; simpl; [reflexivity|].
  inversion Hp as [|? ? Hpq _]; subst.
  apply Qle_bool_iff in Hpq. rewrite Hpq. reflexivity.
Qed.

Lemma strictly_increasing_ascending (l : list point) :
  strictly_increasing_x l -> ascending_x l.
Proof.
  unfold strictly_increasing_x, ascending_x.
  induction 1 as [|p l Hl IH Hp]; constructor; [assumption|].
  eapply Forall_impl; [|exact Hp]. intros a Ha. simpl in Ha. lra.
Qed.

(** Stability: points with the same first component keep their order. *)
Lemma insert_by_x_filter (k : Q) (p : point) (l : list point) :
  ascending_x l ->
  filter (fun q => Qeq_bool (fst q) k) (insert_by_x p l)
  = filter (fun q => Qeq_bool (fst q) k) (p :: l).
Proof.
  unfold ascending_x.
  induction l as [|q r IH]; intro Hs; [reflexivity|].
  inversion Hs as [|? ? Hr Hq]; subst.
  cbn [insert_by_x].
  destruct (Qle_bool (fst p) (fst q)) eqn:E; [reflexivity|].
  apply Qle_bool_false in E.
  cbn [filter]. rewrite (IH Hr). cbn [filter].
  destruct (Qeq_bool (fst p) k) eqn:Ep; [|reflexivity].
  destruct (Qeq_bool (fst q) k) eqn:Eq; [|reflexivity].
  apply Qeq_bool_iff in Ep, Eq. lra.
Qed.

Lemma sorted_by_x_stable (k : Q) (l : list point) :
  filter (fun q => Qeq_bool (fst q) k) (sorted_by_x l)
  = filter (fun q => Qeq_bool (fst q) k) l.
Proof.
  induction l as [|p l IH]; [reflexivity|].
  cbn [sorted_by_x fold_right].
  rewrite insert_by_x_filter by apply sorted_by_x_ascending.
  cbn [filter]. fold (sorted_by_x l). rewrite IH. reflexivity.
Qed.

Lemma ascending_head_le_last (x1 y1 : Q) (rest : list point) :
  ascending_x ((x1, y1) :: rest) -> x1 <= fst (last rest (x1, y1)).
Proof.
  unfold ascending_x. intro Hs.
  inversion Hs as [|? ? _ Hp]; subst.
  destruct rest as [|q r]; [simpl; lra|].
  rewrite Forall_forall in Hp.
  apply (Hp (last (q :: r) (x1, y1))).
  destruct (exists_last (l := q :: r)) as (l' & a & E); [discriminate|].
  rewrite E, last_last. apply in_or_app. right. left. reflexivity.
Qed.

Lemma ascending_tail (p : point) (rest : list point) :
  ascending_x (p :: rest) -> ascending_x rest.
Proof. unfold ascending_x. intro Hs. inversion Hs; assumption. Qed.

(** ** The interpolator on sorted points *)

Lemma last_cons_cons {A : Type} (a d : A) (l : list A) :
  last (a :: l) d = last l a.
Proof.
  revert a d. induction l as [|c r IH]; intros a d; [reflexivity|].
  change (last (a :: c :: r) d) with (last (c :: r) d).
  rewrite (IH c d), (IH c a). reflexivity.
Qed.

Lemma walk_above_last (x1 y1 : Q) (rest : list point) (v : Q) :
  ascending_x ((x1, y1) :: rest) ->
  fst (last rest (x1, y1)) <= v ->
  walk x1 y1 rest v = snd (last rest (x1, y1)).
Proof.
  revert x1 y1.
  induction rest as [|[x2 y2] rest' IH]; intros x1 y1 Hs Hv; [reflexivity|].
  assert (Hs' := ascending_tail _ _ Hs).
  rewrite last_cons_cons in *.
  cbn [walk].
  assert (Hx : x2 <= fst (last rest' (x2, y2)))
    by (apply ascending_head_le_last; assumption).
  assert (E : Qltb v x2 = false) by (apply Qltb_ge; lra).
  rewrite E. apply IH; assumption.
Qed.

(** The index loop finds the segment the walk finds. *)
Lemma segment_loop_walk (pre : list point) (x1 y1 : Q) (rest : list point)
  (v : Q) :
  ascending_x ((x1, y1) :: rest) ->
  x1 <= v ->
  v < fst (last rest (x1, y1)) ->
  segment_loop (pre ++ (x1, y1) :: rest) v
    (seq (List.length pre) (List.length rest))
  = Ok (Some (walk x1 y1 rest v)).
Proof.
  revert pre x1 y1.
  induction rest as [|[x2 y2] rest' IH]; intros pre x1 y1 Hs Hlo Hhi.
  - simpl in Hhi. lra.
  - cbn [List.length seq segment_loop].
    unfold index.
    rewrite nth_error_app2 by lia.
    replace (List.length pre - List.length pre)%nat with 0%nat by lia.
    cbn [nth_error bind].
    rewrite nth_error_app2 by lia.
    replace (List.length pre + 1 - List.length pre)%nat with 1%nat by lia.
    cbn [nth_error bind walk].
    unfold in_segment.
    assert (E1 : Qle_bool x1 v = true) by (apply Qle_bool_iff; assumption).
    rewrite E1. cbn [andb].
    destruct (Qltb v x2) eqn:E2.
    + apply Qltb_lt in E2.
      rewrite pydiv_ok by lra. reflexivity.
    + apply Qltb_ge in E2.
      specialize (IH (pre ++ [(x1, y1)]) x2 y2 (ascending_tail _ _ Hs) E2).
      rewrite <- app_assoc, length_app in IH. cbn [List.length app] in IH.
      replace (List.length pre + 1)%nat with (S (List.length pre)) in IH by lia.
      apply IH.
      rewrite last_cons_cons in Hhi. exact Hhi.
Qed.

(** What [interpolate_threshold] returns, in terms of the sorted points. *)
Lemma interpolate_threshold_sorted (curve : list point) (x1 y1 : Q)
  (rest : list point) (v : Q) :
  sorted_by_x curve = (x1, y1) :: rest ->
  interpolate_threshold curve v
  = Ok (if Qltb v x1 then None else Some (walk x1 y1 rest v)).
Proof.
  intro Hsort.
  assert (Hs : ascending_x ((x1, y1) :: rest))
    by (rewrite <- Hsort; apply sorted_by_x_ascending).
  unfold interpolate_threshold. rewrite Hsort.
  cbn [index nth_error bind fst].
  destruct (Qltb v x1) eqn:E0; [reflexivity|].
  apply Qltb_ge in E0.
  cbn [index_last bind].
  destruct (Qgeb v (fst (last rest (x1, y1)))) eqn:E1.
  - apply Qgeb_le in E1. rewrite walk_above_last; auto.
  - apply Qgeb_lt in E1.
    cbn [List.length]. rewrite Nat.sub_succ, Nat.sub_0_r.
    assert (Hloop := segment_loop_walk [] x1 y1 rest v Hs E0 E1).
    cbn [app List.length] in Hloop. rewrite Hloop.
    reflexivity.
Qed.


Lemma sorted_by_x_nonempty (curve : list point) :
  curve <> [] -> exists x1 y1 rest, sorted_by_x curve = (x1, y1) :: rest.
Proof.
  intro Hne.
  destruct (sorted_by_x curve) as [|[x1 y1] rest] eqn:E.
  - exfalso. apply Hne.
    apply Permutation_nil. rewrite <- E. apply sorted_by_x_perm.
  - eauto.
Qed.

(** On a non-empty curve the interpolator returns, whatever the volume. *)
Lemma interpolate_threshold_total (curve : list point) (v : Q) :
  curve <> [] -> exists t, interpolate_threshold curve v = Ok t.
Proof.
  intro Hne.
  destruct (sorted_by_x_nonempty curve Hne) as (x1 & y1 & rest & E).
  rewrite (interpolate_threshold_sorted _ _ _ _ v E). eauto.
Qed.

(** The slope of a segment, multiplied back. *)
Lemma slope_mult (x1 y1 x2 y2 : Q) :
  x1 < x2 -> (y2 - y1) / (x2 - x1) * (x2 - x1) == y2 - y1.
Proof.
  intro H. field. lra.
Qed.

(** Inside a segment the interpolated value lies between the two ends. *)
Lemma segment_between (x1 y1 x2 y2 v lo hi : Q) :
  x1 <= v -> v < x2 ->
  lo <= y1 -> lo <= y2 -> y1 <= hi -> y2 <= hi ->
  lo <= y1 + (y2 - y1) / (x2 - x1) * (v - x1) <= hi.
Proof.
  intros Hlo Hhi Hl1 Hl2 Hh1 Hh2.
  assert (Hm := slope_mult x1 y1 x2 y2 ltac:(lra)).
  set (s := (y2 - y1) / (x2 - x1)) in *.
  destruct (Qlt_le_dec s 0) as [Hs|Hs].
  - assert (s * (x2 - x1) <= s * (v - x1)) by nra.
    assert (s * (v - x1) <= 0) by nra.
    lra.
  - assert (s * (v - x1) <= s * (x2 - x1)) by nra.
    assert (0 <= s * (v - x1)) by nra.
    lra.
Qed.

Lemma walk_lower_bound (lo : Q) (x1 y1 : Q) (rest : list point) (v : Q) :
  ascending_x ((x1, y1) :: rest) ->
  x1 <= v ->
  Forall (fun p => lo <= snd p) ((x1, y1) :: rest) ->
  lo <= walk x1 y1 rest v.
Proof.
  revert x1 y1.
  induction rest as [|[x2 y2] rest' IH]; intros x1 y1 Hs Hv Hb.
  - inversion Hb; subst. simpl in *. assumption.
  - cbn [walk].
    inversion Hb as [|? ? H1 Hb']; subst.
    inversion Hb' as [|? ? H2 _]; subst. simpl in H1, H2.
    destruct (Qltb v x2) eqn:E.
    + apply Qltb_lt in E.
      destruct (Qlt_le_dec y1 y2) as [Hy|Hy].
      * apply (segment_between x1 y1 x2 y2 v lo y2); lra.
      * apply (segment_between x1 y1 x2 y2 v lo y1); lra.
    + apply Qltb_ge in E. apply IH; auto. apply (ascending_tail _ _ Hs).
Qed.

Lemma ascending_le_last (x1 y1 : Q) (rest : list point) (q : point) :
  ascending_x ((x1, y1) :: rest) ->
  In q ((x1, y1) :: rest) -> fst q <= fst (last rest (x1, y1)).
Proof.
  revert x1 y1.
  induction rest as [|[x2 y2] rest' IH]; intros x1 y1 Hs Hin.
  - destruct Hin as [<-|[]]. simpl. lra.
  - rewrite last_cons_cons.
    destruct Hin as [<-|Hin].
    + assert (H1 := ascending_head_le_last _ _ _ Hs).
      rewrite last_cons_cons in H1. exact H1.
    + apply IH; [apply (ascending_tail _ _ Hs) | exact Hin].
Qed.

Lemma ascending_head_le (x1 y1 : Q) (rest : list point) (q : point) :
  ascending_x ((x1, y1) :: rest) -> In q ((x1, y1) :: rest) -> x1 <= fst q.
Proof.
  unfold ascending_x. intros Hs Hin.
  inversion Hs as [|? ? _ Hp]; subst.
  destruct Hin as [<-|Hin]; [simpl; lra|].
  rewrite Forall_forall in Hp. apply (Hp q Hin).
Qed.

Lemma walk_le_head (x1 y1 : Q) (rest : list point) (v : Q) :
  ascending_x ((x1, y1) :: rest) ->
  nonincreasing_y ((x1, y1) :: rest) ->
  x1 <= v ->
  walk x1 y1 rest v <= y1.
Proof.
  revert x1 y1.
  induction rest as [|[x2 y2] rest' IH]; intros x1 y1 Hs Hy Hv.
  - simpl. lra.
  - cbn [walk].
    inversion Hy as [|? ? Hy' Hp]; subst.
    inversion Hp as [|? ? H12 _]; subst. simpl in H12.
    destruct (Qltb v x2) eqn:E.
    + apply Qltb_lt in E.
      apply (segment_between x1 y1 x2 y2 v y2 y1); lra.
    + apply Qltb_ge in E.
      assert (walk x2 y2 rest' v <= y2)
        by (apply IH; auto; apply (ascending_tail _ _ Hs)).
      lra.
Qed.

Lemma walk_nonincreasing (x1 y1 : Q) (rest : list point) (a b : Q) :
  ascending_x ((x1, y1) :: rest) ->
  nonincreasing_y ((x1, y1) :: rest) ->
  x1 <= a -> a <= b ->
  walk x1 y1 rest b <= walk x1 y1 rest a.
Proof.
  revert x1 y1.
  induction rest as [|[x2 y2] rest' IH]; intros x1 y1 Hs Hy Ha Hab.
  - simpl. lra.
  - cbn [walk].
    assert (Hs' := ascending_tail _ _ Hs).
    inversion Hy as [|? ? Hy' Hp]; subst.
    inversion Hp as [|? ? H12 _]; subst. simpl in H12.
    destruct (Qltb a x2) eqn:Ea; destruct (Qltb b x2) eqn:Eb.
    + apply Qltb_lt in Ea, Eb.
      assert (Hm := slope_mult x1 y1 x2 y2 ltac:(lra)).
      set (s := (y2 - y1) / (x2 - x1)) in *.
      assert (s <= 0) by nra.
      assert (s * (b - x1) <= s * (a - x1)) by nra.
      lra.
    + apply Qltb_lt in Ea. apply Qltb_ge in Eb.
      assert (walk x2 y2 rest' b <= y2) by (apply walk_le_head; auto).
      assert (y2 <= y1 + (y2 - y1) / (x2 - x1) * (a - x1) <= y1)
        by (apply segment_between; lra).
      lra.
    + apply Qltb_ge in Ea. apply Qltb_lt in Eb. lra.
    + apply Qltb_ge in Ea. apply IH; auto.
Qed.


(** ** The interpolator's contract *)

(** Halfway between (300, 115) and (400, 100) the threshold is 107.5; the
    sort brings unordered points into place first. *)
Example interpolate_threshold_midpoint :
  exists t,
    interpolate_threshold [(400, 100); (300, 115); (500, 90)] 350 = Ok (Some t)
    /\ t == 215 # 2.
Proof. eexists. split; [vm_compute; reflexivity | reflexivity]. Qed.

Example interpolate_threshold_no_points :
  interpolate_threshold [] 350 = Raise IndexError.
Proof. reflexivity. Qed.

(** C4: on a non-empty curve, at any major volume at or above the
    largest-x point (the last point once sorted), [interpolate_threshold]
    returns that point's y-value itself, however far above the volume is. *)
Theorem interpolate_threshold_flat_above_last (curve : list point) :
  curve <> [] ->
  exists p,
    index_last (sorted_by_x curve) = Ok p
    /\ In p curve
    /\ (forall q, In q curve -> fst q <= fst p)
    /\ forall v, fst p <= v ->
         interpolate_threshold curve v = Ok (Some (snd p)).
Proof.
  intro Hne.
  destruct (sorted_by_x_nonempty curve Hne) as (x1 & y1 & rest & E).
  assert (Hs : ascending_x ((x1, y1) :: rest))
    by (rewrite <- E; apply sorted_by_x_ascending).
  exists (last rest (x1, y1)).
  split; [rewrite E; reflexivity|].
  split.
  { apply sorted_by_x_in. rewrite E.
    destruct rest as [|q r]; [left; reflexivity|].
    right. destruct (exists_last (l := q :: r)) as (l' & a & El);
      [discriminate|].
    rewrite El, last_last. apply in_or_app. right. left. reflexivity. }
  split.
  { intros q Hq. apply ascending_le_last; [exact Hs|].
    rewrite <- E. apply sorted_by_x_in. exact Hq. }
  intros v Hv.
  rewrite (interpolate_threshold_sorted _ _ _ _ v E).
  assert (H1 := ascending_head_le_last _ _ _ Hs).
  assert (E0 : Qltb v x1 = false)
    by (apply Qltb_ge; eapply Qle_trans; [exact H1 | exact Hv]).
  rewrite E0, walk_above_last; auto.
Qed.

Lemma interpolate_threshold_flat_above_last_witness :
  exists p,
    index_last (sorted_by_x [(400, 150); (300, 190); (1000, 100)]) = Ok p
    /\ In p [(400, 150); (300, 190); (1000, 100)]
    /\ (forall q, In q [(400, 150); (300, 190); (1000, 100)] -> fst q <= fst p)
    /\ forall v, fst p <= v ->
         interpolate_threshold [(400, 150); (300, 190); (1000, 100)] v
         = Ok (Some (snd p)).
Proof.
  apply (interpolate_threshold_flat_above_last
           [(400, 150); (300, 190); (1000, 100)]).
  discriminate.
Defined.

(** C5: on a non-empty curve, at any major volume strictly below the
    smallest-x point (the first point once sorted), [interpolate_threshold]
    returns [None]: no zero threshold, no extrapolated value. *)
Theorem interpolate_threshold_none_below_first (curve : list point) :
  curve <> [] ->
  exists p,
    index (sorted_by_x curve) 0 = Ok p
    /\ In p curve
    /\ (forall q, In q curve -> fst p <= fst q)
    /\ forall v, v < fst p -> interpolate_threshold curve v = Ok None.
Proof.
  intro Hne.
  destruct (sorted_by_x_nonempty curve Hne) as (x1 & y1 & rest & E).
  assert (Hs : ascending_x ((x1, y1) :: rest))
    by (rewrite <- E; apply sorted_by_x_ascending).
  exists (x1, y1).
  split; [rewrite E; reflexivity|].
  split; [apply sorted_by_x_in; rewrite E; left; reflexivity|].
  split.
  { intros q Hq. apply (ascending_head_le x1 y1 rest q Hs).
    rewrite <- E. apply sorted_by_x_in. exact Hq. }
  intros v Hv.
  rewrite (interpolate_threshold_sorted _ _ _ _ v E).
  cbn [fst] in Hv. apply Qltb_lt in Hv. rewrite Hv. reflexivity.
Qed.

Lemma interpolate_threshold_none_below_first_witness :
  exists p,
    index (sorted_by_x [(400, 150); (300, 190); (1000, 100)]) 0 = Ok p
    /\ In p [(400, 150); (300, 190); (1000, 100)]
    /\ (forall q, In q [(400, 150); (300, 190); (1000, 100)] -> fst p <= fst q)
    /\ forall v, v < fst p ->
         interpolate_threshold [(400, 150); (300, 190); (1000, 100)] v
         = Ok None.
Proof.
  apply (interpolate_threshold_none_below_first
           [(400, 150); (300, 190); (1000, 100)]).
  discriminate.
Defined.



(** Two ways to meet the hypothesis of the monotonicity result, stated on
    the curve as given. *)
Lemma StronglySorted_weaken (R S : point -> point -> Prop) (l : list point) :
  (forall p q, In p l -> In q l -> R p q -> S p q) ->
  StronglySorted R l -> StronglySorted S l.
Proof.
  intros HRS Hs.
  induction Hs as [|p l Hl IH Hp]; constructor.
  - apply IH. intros a b Ha Hb. apply HRS; right; assumption.
  - rewrite Forall_forall in *. intros q Hq.
    apply HRS; [left; reflexivity | right; exact Hq | apply Hp, Hq].
Qed.

Lemma nonincreasing_y_sorted (curve : list point) :
  (forall p q, In p curve -> In q curve -> fst p <= fst q -> snd q <= snd p) ->
  nonincreasing_y (sorted_by_x curve).
Proof.
  intro H.
  apply (StronglySorted_weaken (fun p q => fst p <= fst q)).
  - intros p q Hp Hq. apply H; apply sorted_by_x_in; assumption.
  - apply sorted_by_x_ascending.
Qed.

Lemma nonincreasing_y_strict (curve : list point) :
  strictly_increasing_x curve ->
  (forall p q, In p curve -> In q curve -> fst p < fst q -> snd q <= snd p) ->
  nonincreasing_y (sorted_by_x curve).
Proof.
  intros Hs H.
  rewrite (sorted_by_x_fixed _ (strictly_increasing_ascending _ Hs)).
  apply (StronglySorted_weaken (fun p q => fst p < fst q)); assumption.
Qed.



(** ** Table lookups are total on the keys the evaluators build *)

Lemma get_lane_key_cases (major_lanes minor_lanes : Z) :
  In (get_lane_key major_lanes minor_lanes)
     [(1, 1)%Z; (1, 2)%Z; (2, 1)%Z; (2, 2)%Z].
Proof.
  unfold get_lane_key.
  destruct (major_lanes =? 1)%Z, (minor_lanes =? 1)%Z; simpl; tauto.
Qed.

Lemma get_threshold_percentage_cases (speed population : Q) (combo : bool) :
  In (get_threshold_percentage speed population combo)
     ["100"%string; "80"%string; "70"%string; "56"%string].
Proof.
  unfold get_threshold_percentage.
  destruct combo, (Qltb 40 speed || Qltb population 10000); simpl; tauto.
Qed.

Lemma curve_pct_cases (speed population : Q) :
  curve_pct speed population = "70"%string
  \/ curve_pct speed population = "100"%string.
Proof.
  unfold curve_pct.
  destruct (Qltb 40 speed || Qltb population 10000); tauto.
Qed.

Lemma warrant1_threshold_total (cond : string) (lk : lane_key) (pct : string) :
  cond = "condition_a"%string \/ cond = "condition_b"%string ->
  In lk [(1, 1)%Z; (1, 2)%Z; (2, 1)%Z; (2, 2)%Z] ->
  In pct ["100"%string; "80"%string; "70"%string; "56"%string] ->
  exists t, warrant1_threshold cond lk pct = Ok t.
Proof.
  intros [-> | ->] Hlk Hpct; each_key Hlk; each_key Hpct;
    eexists; reflexivity.
Qed.

Lemma warrant3_curve_total (pct : string) (lk : lane_key) :
  pct = "70"%string \/ pct = "100"%string ->
  In lk [(1, 1)%Z; (1, 2)%Z; (2, 1)%Z; (2, 2)%Z] ->
  exists c, curve_for WARRANT3_CURVES pct lk = Ok c /\ good_curve 70 c.
Proof.
  intros [-> | ->] Hlk; each_key Hlk;
    (eexists; split; [reflexivity | good_curve_tac]).
Qed.

Lemma warrant4_curve_total (kind pct : string) :
  kind = "four_hour_"%string \/ kind = "peak_hour_"%string ->
  pct = "70"%string \/ pct = "100"%string ->
  exists c,
    lookup String.eqb WARRANT4_CURVES (String.append kind pct) = Ok c
    /\ good_curve 70 c.
Proof.
  intros [-> | ->] [-> | ->];
    (eexists; split; [reflexivity | good_curve_tac]).
Qed.

(** On a good curve the interpolator returns, [None] exactly below the
    first breakpoint and a threshold of at least [lo] from there on. *)
Lemma interpolate_good_curve (lo : Q) (c : list point) (v : Q) :
  good_curve lo c ->
  exists p0 rest, c = p0 :: rest
    /\ ((v < fst p0 /\ interpolate_threshold c v = Ok None)
        \/ (fst p0 <= v
            /\ exists t, interpolate_threshold c v = Ok (Some t) /\ lo <= t)).
Proof.
  intros (Hne & Hs & _ & Hb).
  destruct c as [|[x1 y1] rest]; [contradiction|].
  exists (x1, y1), rest. split; [reflexivity|].
  assert (Ha := strictly_increasing_ascending _ Hs).
  rewrite (interpolate_threshold_sorted _ x1 y1 rest v (sorted_by_x_fixed _ Ha)).
  cbn [fst].
  destruct (Qltb v x1) eqn:E.
  - left. apply Qltb_lt in E. split; [assumption | reflexivity].
  - right. apply Qltb_ge in E. split; [assumption|].
    eexists. split; [reflexivity|].
    apply (walk_lower_bound lo x1 y1 rest v Ha E Hb).
Qed.

(** ** Warrant 1 *)

Lemma count_hours_cons (test : HourlyCount -> bool) (row : HourlyCount)
  (df : list HourlyCount) :
  count_hours test (row :: df)
  = ((if test row then 1 else 0) + count_hours test df)%nat.
Proof.
  unfold count_hours. simpl. destruct (test row); reflexivity.
Qed.

Lemma bump_add (b : bool) (n : nat) :
  bump b n = (n + (if b then 1 else 0))%nat.
Proof. destruct b; simpl; lia. Qed.

(** The four counters of the loop are the four hour counts. *)
Lemma warrant1_loop_counts (ta tb tac tbc : Q * Q) (major_col minor_col : column)
  (df : list HourlyCount) (t0 : W1.tally) :
  let roles := (major_col, minor_col) in
  let t := fold_left (warrant1_body ta tb tac tbc major_col minor_col) df t0 in
  (W1.hours_a t = W1.hours_a t0 + count_hours (hour_meets ta roles) df
   /\ W1.hours_b t = W1.hours_b t0 + count_hours (hour_meets tb roles) df
   /\ W1.hours_a_combo t
      = W1.hours_a_combo t0 + count_hours (hour_meets tac roles) df
   /\ W1.hours_b_combo t
      = W1.hours_b_combo t0 + count_hours (hour_meets tbc roles) df)%nat.
Proof.
  cbv zeta. revert t0.
  induction df as [|row df IH]; intro t0.
  - unfold count_hours. simpl. lia.
  - cbn [fold_left]. rewrite !count_hours_cons.
    destruct (IH (warrant1_body ta tb tac tbc major_col minor_col t0 row))
      as (Ha & Hb & Hac & Hbc).
    rewrite Ha, Hb, Hac, Hbc.
    unfold warrant1_body. cbn [W1.hours_a W1.hours_b W1.hours_a_combo
                                 W1.hours_b_combo].
    rewrite !bump_add. unfold hour_meets. cbn [fst snd]. lia.
Qed.

Section Warrant1.
Variable df : list HourlyCount.
Variables major_lanes minor_lanes : Z.
Variables speed population : Q.

Let lk := get_lane_key major_lanes minor_lanes.
Let pct := get_threshold_percentage speed population false.
Let pct_combo := get_threshold_percentage speed population true.
Let roles := resolve_roles df.

(** The verdict of a run on at least eight rows, branch by branch. *)
Lemma evaluate_warrant1_run :
  (8 <= List.length df)%nat ->
  exists ta tb tac tbc r,
    warrant1_threshold "condition_a" lk pct = Ok ta
    /\ warrant1_threshold "condition_b" lk pct = Ok tb
    /\ warrant1_threshold "condition_a" lk pct_combo = Ok tac
    /\ warrant1_threshold "condition_b" lk pct_combo = Ok tbc
    /\ evaluate_warrant1 (Some df) major_lanes minor_lanes speed population
       = Ok r
    /\ let hours_a := count_hours (hour_meets ta roles) df in
       let hours_b := count_hours (hour_meets tb roles) df in
       let hours_a_combo := count_hours (hour_meets tac roles) df in
       let hours_b_combo := count_hours (hour_meets tbc roles) df in
       (W1.met r, W1.condition r, W1.hours_met r)
       = if (8 <=? hours_a)%nat then (Some true, Some "A"%string, hours_a)
         else if (8 <=? hours_b)%nat then
           (Some true, Some "B"%string, hours_b)
         else if (8 <=? hours_a_combo)%nat && (8 <=? hours_b_combo)%nat then
           (Some true, Some "A+B"%string, Nat.min hours_a_combo hours_b_combo)
         else (Some false, None, Nat.max hours_a hours_b).
Proof.
  intro Hlen.
  destruct (warrant1_threshold_total "condition_a" lk pct) as [ta Hta];
    [tauto | apply get_lane_key_cases
     | apply get_threshold_percentage_cases |].
  destruct (warrant1_threshold_total "condition_b" lk pct) as [tb Htb];
    [tauto | apply get_lane_key_cases
     | apply get_threshold_percentage_cases |].
  destruct (warrant1_threshold_total "condition_a" lk pct_combo)
    as [tac Htac];
    [tauto | apply get_lane_key_cases
     | apply get_threshold_percentage_cases |].
  destruct (warrant1_threshold_total "condition_b" lk pct_combo)
    as [tbc Htbc];
    [tauto | apply get_lane_key_cases
     | apply get_threshold_percentage_cases |].
  exists ta, tb, tac, tbc.
  unfold evaluate_warrant1.
  assert (El : (List.length df <? 8)%nat = false)
    by (apply Nat.ltb_ge; exact Hlen).
  rewrite El.
  fold lk pct pct_combo. rewrite Hta, Htb, Htac, Htbc. cbn [bind].
  fold roles. destruct roles as [major_col minor_col] eqn:Er.
  destruct (warrant1_loop_counts ta tb tac tbc major_col minor_col df
              (W1.mkTally 0 0 0 0 [])) as (Ha & Hb & Hac & Hbc).
  cbn [W1.hours_a W1.hours_b W1.hours_a_combo W1.hours_b_combo plus]
    in Ha, Hb, Hac, Hbc.
  rewrite Ha, Hb, Hac, Hbc.
  destruct (8 <=? count_hours (hour_meets ta (major_col, minor_col)) df)%nat;
    [eexists; repeat split; reflexivity|].
  destruct (8 <=? count_hours (hour_meets tb (major_col, minor_col)) df)%nat;
    [eexists; repeat split; reflexivity|].
  destruct ((8 <=? count_hours (hour_meets tac (major_col, minor_col)) df)%nat
            && (8 <=? count_hours (hour_meets tbc (major_col, minor_col)) df)%nat);
    eexists; repeat split; reflexivity.
Qed.
End Warrant1.

(** C1: on a series of at least 8 hourly rows [evaluate_warrant1] decides
    first match wins: Condition-A hours >= 8 gives met with condition "A";
    else Condition-B hours >= 8 gives met with condition "B"; else both
    combination-tier counts >= 8 give met with condition "A+B"; otherwise
    not met, with hours_met the larger of the Condition-A and Condition-B
    counts.  An hour meets a pair iff its major volume reaches the pair's
    major threshold and its minor volume the pair's minor threshold. *)
Theorem evaluate_warrant1_first_match_wins (df : list HourlyCount)
  (major_lanes minor_lanes : Z) (speed population : Q) :
  (8 <= List.length df)%nat ->
  let lk := get_lane_key major_lanes minor_lanes in
  let pct := get_threshold_percentage speed population false in
  let pct_combo := get_threshold_percentage speed population true in
  let roles := resolve_roles df in
  exists ta tb tac tbc r,
    warrant1_threshold "condition_a" lk pct = Ok ta
    /\ warrant1_threshold "condition_b" lk pct = Ok tb
    /\ warrant1_threshold "condition_a" lk pct_combo = Ok tac
    /\ warrant1_threshold "condition_b" lk pct_combo = Ok tbc
    /\ evaluate_warrant1 (Some df) major_lanes minor_lanes speed population
       = Ok r
    /\ (forall thresh row,
           hour_meets thresh roles row = true
           <-> fst thresh <= cell row (fst roles)
               /\ snd thresh <= cell row (snd roles))
    /\ let hours_a := count_hours (hour_meets ta roles) df in
       let hours_b := count_hours (hour_meets tb roles) df in
       let hours_a_combo := count_hours (hour_meets tac roles) df in
       let hours_b_combo := count_hours (hour_meets tbc roles) df in
       ((8 <= hours_a)%nat ->
        W1.met r = Some true /\ W1.condition r = Some "A"%string)
       /\ ((hours_a < 8)%nat -> (8 <= hours_b)%nat ->
           W1.met r = Some true /\ W1.condition r = Some "B"%string)
       /\ ((hours_a < 8)%nat -> (hours_b < 8)%nat ->
           (8 <= hours_a_combo)%nat -> (8 <= hours_b_combo)%nat ->
           W1.met r = Some true /\ W1.condition r = Some "A+B"%string)
       /\ ((hours_a < 8)%nat -> (hours_b < 8)%nat ->
           (hours_a_combo < 8)%nat \/ (hours_b_combo < 8)%nat ->
           W1.met r = Some false
           /\ W1.hours_met r = Nat.max hours_a hours_b).
Proof.
  intros Hlen lk pct pct_combo roles.
  destruct (evaluate_warrant1_run df major_lanes minor_lanes speed population
              Hlen) as (ta & tb & tac & tbc & r & Hta & Htb & Htac & Htbc
                        & Hr & Hv).
  exists ta, tb, tac, tbc, r.
  do 5 (split; [assumption|]).
  split; [intros thresh row; apply meets_iff|].
  cbv zeta in Hv |- *. fold roles in Hv.
  destruct (Nat.leb_spec 8 (count_hours (hour_meets ta roles) df));
    [injection Hv as -> -> ->; repeat split; intros; try lia; reflexivity|].
  destruct (Nat.leb_spec 8 (count_hours (hour_meets tb roles) df));
    [injection Hv as -> -> ->; repeat split; intros; try lia; reflexivity|].
  destruct (Nat.leb_spec 8 (count_hours (hour_meets tac roles) df));
    destruct (Nat.leb_spec 8 (count_hours (hour_meets tbc roles) df));
    cbn [andb] in Hv;
    injection Hv as -> -> ->; repeat split; intros; try lia; reflexivity.
Qed.

Lemma evaluate_warrant1_first_match_wins_witness :
  exists r,
    evaluate_warrant1 (Some (repeat (mkHour "07:00" 600 200) 8)) 1 1 35 15000
    = Ok r
    /\ W1.met r = Some true /\ W1.condition r = Some "A"%string.
Proof.
  destruct (evaluate_warrant1_first_match_wins
              (repeat (mkHour "07:00" 600 200) 8) 1 1 35 15000)
    as (ta & tb & tac & tbc & r & Hta & _ & _ & _ & Hr & _ & HA & _).
  - simpl. lia.
  - exists r. split; [exact Hr|].
    apply HA. vm_compute in Hta. injection Hta as <-.
    vm_compute. apply le_n.
Defined.

(** At 45 mph the 70% column applies: eight hours of (600, 200) meet the
    Condition-A pair (350, 105). *)
Example evaluate_warrant1_reduced_tier :
  exists r,
    evaluate_warrant1 (Some (repeat (mkHour "07:00" 600 200) 8)) 1 1 45 15000
    = Ok r
    /\ W1.met r = Some true
    /\ W1.condition r = Some "A"%string
    /\ W1.hours_met r = 8%nat
    /\ W1.threshold_used r = Some ("70"%string, (350, 105), (525, 53)).
Proof.
  eexists. split; [vm_compute; reflexivity | repeat split].
Qed.

(** C10: when [evaluate_warrant1] answers with condition "A+B", the verdict
    is met and its hours_met is the smaller of the two combination-tier
    hour counts. *)
Theorem evaluate_warrant1_combination_hours
  (traffic_df : option (list HourlyCount)) (major_lanes minor_lanes : Z)
  (speed population : Q) (r : W1.result) :
  evaluate_warrant1 traffic_df major_lanes minor_lanes speed population = Ok r ->
  W1.condition r = Some "A+B"%string ->
  let lk := get_lane_key major_lanes minor_lanes in
  let pct_combo := get_threshold_percentage speed population true in
  exists df tac tbc,
    traffic_df = Some df
    /\ warrant1_threshold "condition_a" lk pct_combo = Ok tac
    /\ warrant1_threshold "condition_b" lk pct_combo = Ok tbc
    /\ W1.met r = Some true
    /\ W1.hours_met r
       = Nat.min (count_hours (hour_meets tac (resolve_roles df)) df)
                 (count_hours (hour_meets tbc (resolve_roles df)) df).
Proof.
  intros Hr Hc lk pct_combo.
  destruct traffic_df as [df|];
    [|injection Hr as <-; discriminate].
  destruct (Nat.ltb_spec (List.length df) 8) as [Hlt|Hge].
  { unfold evaluate_warrant1 in Hr.
    apply Nat.ltb_lt in Hlt. rewrite Hlt in Hr.
    injection Hr as <-. discriminate. }
  destruct (evaluate_warrant1_run df major_lanes minor_lanes speed population
              Hge) as (ta & tb & tac & tbc & r' & _ & _ & Htac & Htbc
                       & Hr' & Hv).
  rewrite Hr in Hr'. injection Hr' as <-.
  exists df, tac, tbc. do 3 (split; [assumption || reflexivity|]).
  cbv zeta in Hv.
  destruct (8 <=? count_hours (hour_meets ta (resolve_roles df)) df)%nat;
    [injection Hv as _ Hc' _; congruence|].
  destruct (8 <=? count_hours (hour_meets tb (resolve_roles df)) df)%nat;
    [injection Hv as _ Hc' _; congruence|].
  destruct ((8 <=? count_hours (hour_meets tac (resolve_roles df)) df)%nat
            && (8 <=? count_hours (hour_meets tbc (resolve_roles df)) df)%nat);
    injection Hv as Hm Hc' Hh; [split; assumption | congruence].
Qed.

Lemma evaluate_warrant1_combination_hours_witness :
  exists r,
    evaluate_warrant1 (Some (repeat (mkHour "07:00" 650 130) 8)) 1 1 35 15000
    = Ok r
    /\ exists df tac tbc,
        Some (repeat (mkHour "07:00" 650 130) 8) = Some df
        /\ warrant1_threshold "condition_a" (get_lane_key 1 1)
             (get_threshold_percentage 35 15000 true) = Ok tac
        /\ warrant1_threshold "condition_b" (get_lane_key 1 1)
             (get_threshold_percentage 35 15000 true) = Ok tbc
        /\ W1.met r = Some true
        /\ W1.hours_met r
           = Nat.min (count_hours (hour_meets tac (resolve_roles df)) df)
                     (count_hours (hour_meets tbc (resolve_roles df)) df).
Proof.
  eexists. split; [vm_compute; reflexivity|].
  eapply (evaluate_warrant1_combination_hours
            (Some (repeat (mkHour "07:00" 650 130) 8)) 1 1 35 15000).
  - vm_compute. reflexivity.
  - reflexivity.
Defined.

(** ** Warrant 7 *)

Lemma count_hours_le_length (test : HourlyCount -> bool)
  (df : list HourlyCount) :
  (count_hours test df <= List.length df)%nat.
Proof. apply filter_length_le. Qed.


Lemma warrant7_hour_run (ta tb : Q * Q) (curve : list point)
  (major_col minor_col : column) (row : HourlyCount) :
  curve <> [] ->
  exists h,
    warrant7_hour ta tb curve major_col minor_col row = Ok h
    /\ W7.meets_volume h
       = warrant7_volume_hour ta tb curve (major_col, minor_col) row.
Proof.
  intro Hne.
  destruct (interpolate_threshold_total curve (cell row major_col) Hne)
    as [t Ht].
  unfold warrant7_hour, warrant7_volume_hour, hour_above_curve, hour_meets.
  cbn [fst snd]. rewrite Ht. cbn [bind].
  eexists. split; reflexivity.
Qed.

(** The counter of the loop is the count of hours passing the volume test. *)
Lemma warrant7_loop_count (ta tb : Q * Q) (curve : list point)
  (major_col minor_col : column) (df : list HourlyCount)
  (n0 : nat) (h0 : list W7.hourly) :
  curve <> [] ->
  exists hs,
    foldM (warrant7_body ta tb curve major_col minor_col) df (n0, h0)
    = Ok ((n0 + count_hours
                  (warrant7_volume_hour ta tb curve (major_col, minor_col)) df)%nat,
          hs).
Proof.
  intro Hne. revert n0 h0.
  induction df as [|row df IH]; intros n0 h0.
  - exists h0. unfold count_hours. simpl. rewrite Nat.add_0_r. reflexivity.
  - cbn [foldM]. unfold warrant7_body at 1.
    destruct (warrant7_hour_run ta tb curve major_col minor_col row Hne)
      as (h & Hh & Hm).
    rewrite Hh. cbn [bind].
    destruct (IH (bump (W7.meets_volume h) n0) (h0 ++ [h])) as [hs Hhs].
    exists hs. rewrite Hhs, count_hours_cons, bump_add, Hm.
    f_equal. f_equal. lia.
Qed.



(** ** Warrant 4 *)

Lemma insert_desc_length (x : Q) (l : list Q) :
  List.length (insert_desc x l) = S (List.length l).
Proof.
  induction l as [|y r IH]; simpl; [reflexivity|].
  destruct (Qle_bool y x); simpl; [reflexivity|].
  rewrite IH. reflexivity.
Qed.

Lemma nlargest_nonempty (n : nat) (xs : list Q) :
  xs <> [] -> List.length (nlargest (S n) xs) <> 0%nat.
Proof.
  intro Hne. unfold nlargest.
  destruct xs as [|x r]; [contradiction|].
  cbn [fold_right].
  destruct (insert_desc x (fold_right insert_desc [] r)) eqn:E.
  - assert (H := insert_desc_length x (fold_right insert_desc [] r)).
    rewrite E in H. discriminate.
  - simpl. discriminate.
Qed.

Lemma mean_total (xs : list Q) :
  List.length xs <> 0%nat -> exists m, mean xs = Ok m.
Proof.
  intro Hne. unfold mean. rewrite pydiv_ok; [eauto|].
  destruct (List.length xs) as [|n]; [contradiction|].
  unfold Qeq. simpl. lia.
Qed.

Lemma series_max_total (xs : list Q) :
  xs <> [] -> exists m, series_max xs = Ok m.
Proof.
  destruct xs; [contradiction|]. simpl. eauto.
Qed.

Lemma above_truthy_format (t : option Q) (vol : Q) :
  above t vol = true -> exists q, t = Some q /\ format_0f t = Ok (Hole_0f q).
Proof.
  destruct t as [q|]; [eauto | discriminate].
Qed.

Lemma guarded_format_total (t : option Q) :
  exists p, (if truthy t then format_0f t else Ok (Lit "N/A")) = Ok p.
Proof.
  destruct t as [q|]; simpl; [|eauto].
  destruct (negb (Qeq_bool q 0)); eauto.
Qed.

Lemma resolve_roles_major (df : list HourlyCount) :
  fst (resolve_roles df)
  = if Qgeb (series_sum (column_of df Street_1)) (series_sum (column_of df Street_2))
    then Street_1 else Street_2.
Proof.
  unfold resolve_roles. destruct (Qgeb _ _); reflexivity.
Qed.

Lemma warrant4_pct_cases (speed population : Q) :
  warrant4_pct speed population = "70"%string
  \/ warrant4_pct speed population = "100"%string.
Proof.
  unfold warrant4_pct.
  destruct (Qltb 35 speed || Qltb population 10000); tauto.
Qed.

Lemma warrant4_pct_70 (speed population : Q) :
  warrant4_pct speed population = "70"%string
  <-> 35 < speed \/ population < 10000.
Proof.
  unfold warrant4_pct. rewrite <- !Qltb_lt, <- orb_true_iff.
  destruct (Qltb 35 speed || Qltb population 10000);
    split; (reflexivity || discriminate).
Qed.

Section Warrant4.
Variable traffic_df : option (list HourlyCount).
Variables speed population ped_peak ped_4hr gaps_per_hour dist_to_signal : Q.

Let run : exc W4.result :=
  evaluate_warrant4 traffic_df speed population ped_peak ped_4hr gaps_per_hour
    dist_to_signal.

(** A failed gate ends the run with not met, whatever the series. *)
Lemma evaluate_warrant4_gate_fails :
  dist_to_signal < 300 \/ 60 <= gaps_per_hour ->
  exists r, run = Ok r /\ W4.met r = Some false.
Proof.
  intro Hgate. unfold run, evaluate_warrant4.
  destruct (Qltb dist_to_signal 300) eqn:Ed;
    [eexists; split; reflexivity|].
  apply Qltb_ge in Ed.
  destruct (Qltb gaps_per_hour 60) eqn:Eg; cbn [negb];
    [|eexists; split; reflexivity].
  apply Qltb_lt in Eg. destruct Hgate; lra.
Qed.

(** Past the gates, a missing or empty series gives not applicable. *)
Lemma evaluate_warrant4_short :
  300 <= dist_to_signal -> gaps_per_hour < 60 -> short_of 1 traffic_df ->
  exists r, run = Ok r /\ W4.met r = None.
Proof.
  intros Hd Hg Hshort. unfold run, evaluate_warrant4.
  apply Qltb_ge in Hd. apply Qltb_lt in Hg. rewrite Hd, Hg. cbn [negb].
  fold (warrant4_pct speed population).
  destruct (warrant4_curve_total "four_hour_" (warrant4_pct speed population))
    as (c4 & Hc4 & _); [tauto | apply warrant4_pct_cases |].
  destruct (warrant4_curve_total "peak_hour_" (warrant4_pct speed population))
    as (cp & Hcp & _); [tauto | apply warrant4_pct_cases |].
  rewrite Hc4, Hcp. cbn [bind].
  destruct traffic_df as [df|]; [|eexists; split; reflexivity].
  simpl in Hshort. apply Nat.ltb_lt in Hshort. rewrite Hshort.
  eexists; split; reflexivity.
Qed.

(** Past the gates, on a series with at least one row, the run makes both
    checks and reports them. *)
Lemma evaluate_warrant4_run (df : list HourlyCount) :
  traffic_df = Some df -> df <> [] ->
  300 <= dist_to_signal -> gaps_per_hour < 60 ->
  let pct := warrant4_pct speed population in
  let major_col := fst (resolve_roles df) in
  exists four_hour_curve peak_hour_curve top_4_major peak_major
         four_hr_threshold peak_hr_threshold r,
    lookup String.eqb WARRANT4_CURVES (String.append "four_hour_" pct)
    = Ok four_hour_curve
    /\ lookup String.eqb WARRANT4_CURVES (String.append "peak_hour_" pct)
       = Ok peak_hour_curve
    /\ mean (nlargest 4 (column_of df major_col)) = Ok top_4_major
    /\ series_max (column_of df major_col) = Ok peak_major
    /\ interpolate_threshold four_hour_curve top_4_major = Ok four_hr_threshold
    /\ interpolate_threshold peak_hour_curve peak_major = Ok peak_hr_threshold
    /\ run = Ok r
    /\ let four_hour_met := above four_hr_threshold ped_4hr in
       let peak_hour_met := above peak_hr_threshold ped_peak in
       (W4.met r, W4.criterion r, W4.four_hour_met r, W4.peak_hour_met r,
        W4.pct r)
       = (Some (four_hour_met || peak_hour_met),
          (if four_hour_met then Some "Four-Hour"%string
           else if peak_hour_met then Some "Peak Hour"%string else None),
          four_hour_met, peak_hour_met, Some pct).
Proof.
  intros -> Hne Hd Hg pct major_col. unfold run, evaluate_warrant4.
  apply Qltb_ge in Hd. apply Qltb_lt in Hg. rewrite Hd, Hg. cbn [negb].
  fold (warrant4_pct speed population). fold pct.
  destruct (warrant4_curve_total "four_hour_" pct) as (c4 & Hc4 & Hg4);
    [tauto | apply warrant4_pct_cases |].
  destruct (warrant4_curve_total "peak_hour_" pct) as (cp & Hcp & Hgp);
    [tauto | apply warrant4_pct_cases |].
  rewrite Hc4, Hcp. cbn [bind].
  assert (El : (List.length df <? 1)%nat = false)
    by (destruct df; [contradiction | reflexivity]).
  rewrite El, <- resolve_roles_major. fold major_col.
  destruct (mean_total (nlargest 4 (column_of df major_col))) as [top4 Htop4].
  { apply nlargest_nonempty. destruct df; [contradiction | discriminate]. }
  destruct (series_max_total (column_of df major_col)) as [pk Hpk].
  { destruct df; [contradiction | discriminate]. }
  destruct (interpolate_threshold_total c4 top4) as [t4 Ht4]; [apply Hg4|].
  destruct (interpolate_threshold_total cp pk) as [tp Htp]; [apply Hgp|].
  rewrite Htop4. cbn [bind]. rewrite Ht4. cbn [bind].
  rewrite Hpk. cbn [bind]. rewrite Htp. cbn [bind].
  exists c4, cp, top4, pk, t4, tp.
  destruct (above t4 ped_4hr) eqn:E4; cbn [orb].
  - destruct (above_truthy_format _ _ E4) as (q & -> & Hf).
    rewrite Hf. cbn [bind].
    eexists. repeat (split; [eassumption || reflexivity|]). reflexivity.
  - destruct (above tp ped_peak) eqn:Ep.
    + destruct (above_truthy_format _ _ Ep) as (q & -> & Hf).
      rewrite Hf. cbn [bind].
      eexists. repeat (split; [eassumption || reflexivity|]). reflexivity.
    + destruct (guarded_format_total t4) as [s4 Hs4].
      destruct (guarded_format_total tp) as [sp Hsp].
      rewrite Hs4. cbn [bind]. rewrite Hsp. cbn [bind].
      eexists. repeat (split; [eassumption || reflexivity|]). reflexivity.
Qed.
End Warrant4.

(** C8: [evaluate_warrant4] checks its gates in order: a distance to the
    nearest signal under 300 ft gives not met; else 60 or more adequate gaps
    per hour give not met; else a missing (or empty) series gives not
    applicable.  Past the gates the tier is "70" iff speed > 35 or
    population < 10000, met is the four-hour check or the peak-hour check,
    and the criterion names the four-hour check whenever it passed and the
    peak-hour check only when the four-hour check failed. *)
Theorem evaluate_warrant4_gates (traffic_df : option (list HourlyCount))
  (speed population ped_peak ped_4hr gaps_per_hour dist_to_signal : Q) :
  exists r,
    evaluate_warrant4 traffic_df speed population ped_peak ped_4hr
      gaps_per_hour dist_to_signal = Ok r
    /\ (dist_to_signal < 300 -> W4.met r = Some false)
    /\ (300 <= dist_to_signal -> 60 <= gaps_per_hour -> W4.met r = Some false)
    /\ (300 <= dist_to_signal -> gaps_per_hour < 60 ->
        short_of 1 traffic_df -> W4.met r = None)
    /\ (300 <= dist_to_signal -> gaps_per_hour < 60 ->
        forall df, traffic_df = Some df -> df <> [] ->
        exists pct four_hour_curve peak_hour_curve top_4_major peak_major
               four_hr_threshold peak_hr_threshold,
          W4.pct r = Some pct
          /\ (35 < speed \/ population < 10000 -> pct = "70"%string)
          /\ (~ (35 < speed \/ population < 10000) -> pct = "100"%string)
          /\ lookup String.eqb WARRANT4_CURVES (String.append "four_hour_" pct)
             = Ok four_hour_curve
          /\ lookup String.eqb WARRANT4_CURVES (String.append "peak_hour_" pct)
             = Ok peak_hour_curve
          /\ mean (nlargest 4 (column_of df (fst (resolve_roles df))))
             = Ok top_4_major
          /\ series_max (column_of df (fst (resolve_roles df))) = Ok peak_major
          /\ interpolate_threshold four_hour_curve top_4_major
             = Ok four_hr_threshold
          /\ interpolate_threshold peak_hour_curve peak_major
             = Ok peak_hr_threshold
          /\ W4.four_hour_met r = above four_hr_threshold ped_4hr
          /\ W4.peak_hour_met r = above peak_hr_threshold ped_peak
          /\ W4.met r = Some (W4.four_hour_met r || W4.peak_hour_met r)
          /\ (W4.four_hour_met r = true ->
              W4.criterion r = Some "Four-Hour"%string)
          /\ (W4.four_hour_met r = false -> W4.peak_hour_met r = true ->
              W4.criterion r = Some "Peak Hour"%string)
          /\ (W4.four_hour_met r = false -> W4.peak_hour_met r = false ->
              W4.criterion r = None)).
Proof.
  destruct (Qlt_le_dec dist_to_signal 300) as [Hd|Hd].
  { destruct (evaluate_warrant4_gate_fails traffic_df speed population
                ped_peak ped_4hr gaps_per_hour dist_to_signal)
      as (r & Hr & Hm); [left; exact Hd|].
    exists r. split; [exact Hr|].
    repeat split; intros; try assumption; lra. }
  destruct (Qlt_le_dec gaps_per_hour 60) as [Hg|Hg].
  2:{ destruct (evaluate_warrant4_gate_fails traffic_df speed population
                  ped_peak ped_4hr gaps_per_hour dist_to_signal)
        as (r & Hr & Hm); [right; exact Hg|].
      exists r. split; [exact Hr|].
      repeat split; intros; try assumption; lra. }
  assert (Hcases : short_of 1 traffic_df
                   \/ exists df, traffic_df = Some df /\ df <> []).
  { destruct traffic_df as [[|row df]|]; simpl.
    - left. lia.
    - right. eexists. split; [reflexivity | discriminate].
    - left. exact I. }
  destruct Hcases as [Hshort | (df & Hdf & Hne)].
  - destruct (evaluate_warrant4_short traffic_df speed population ped_peak
                ped_4hr gaps_per_hour dist_to_signal Hd Hg Hshort)
      as (r & Hr & Hm).
    exists r. split; [exact Hr|].
    split; [intro; lra|]. split; [intros; lra|].
    split; [intros; exact Hm|].
    intros _ _ df E Hne. subst traffic_df.
    destruct df; [contradiction | simpl in Hshort; lia].
  - destruct (evaluate_warrant4_run traffic_df speed population ped_peak
                ped_4hr gaps_per_hour dist_to_signal df Hdf Hne Hd Hg)
      as (c4 & cp & top4 & pk & t4 & tp & r & Hc4 & Hcp & Htop & Hpk & Ht4
          & Htp & Hr & Hv).
    cbv zeta in Hv. injection Hv as Hm Hcr H4 Hp Hpct.
    exists r. split; [exact Hr|].
    split; [intro; lra|]. split; [intros; lra|].
    split.
    { intros _ _ Hshort. rewrite Hdf in Hshort.
      destruct df; [contradiction | simpl in Hshort; lia]. }
    intros _ _ df' E _. rewrite Hdf in E. injection E as <-.
    exists (warrant4_pct speed population), c4, cp, top4, pk, t4, tp.
    split; [exact Hpct|].
    split; [apply warrant4_pct_70|].
    split.
    { intro Hno. destruct (warrant4_pct_cases speed population) as [E|E];
        [|exact E].
      apply warrant4_pct_70 in E. contradiction. }
    do 6 (split; [assumption|]).
    split; [exact H4|]. split; [exact Hp|].
    rewrite H4, Hp. split; [exact Hm|].
    rewrite Hcr.
    destruct (above t4 ped_4hr), (above tp ped_peak);
      repeat split; intros; try reflexivity; discriminate.
Qed.

Lemma evaluate_warrant4_gates_witness :
  exists r,
    evaluate_warrant4 (Some (repeat (mkHour "07:00" 500 100) 4))
      30 20000 50 200 30 1000 = Ok r
    /\ W4.criterion r = Some "Four-Hour"%string.
Proof.
  destruct (evaluate_warrant4_gates (Some (repeat (mkHour "07:00" 500 100) 4))
              30 20000 50 200 30 1000) as (r & Hr & _ & _ & _ & H).
  exists r. split; [exact Hr|].
  destruct (H ltac:(vm_compute; discriminate) ltac:(reflexivity)
              (repeat (mkHour "07:00" 500 100) 4) eq_refl
              ltac:(discriminate))
    as (pct & c4 & cp & top4 & pk & t4 & tp & Hcases).
  apply Hcases.
  vm_compute in Hr. injection Hr as <-. reflexivity.
Defined.

(** ** Warrant 3 *)

(** [idxmax_from] keeps the first position of the largest value seen. *)
Lemma idxmax_from_spec (pre xs : list Q) (best_i : nat) (best : Q) :
  nth_error pre best_i = Some best ->
  (forall j x, nth_error pre j = Some x -> x <= best) ->
  (forall j x, (j < best_i)%nat -> nth_error pre j = Some x -> x < best) ->
  let k := idxmax_from xs (List.length pre) best_i best in
  exists m,
    nth_error (pre ++ xs) k = Some m
    /\ (forall j x, nth_error (pre ++ xs) j = Some x -> x <= m)
    /\ (forall j x, (j < k)%nat -> nth_error (pre ++ xs) j = Some x -> x < m).
Proof.
  revert pre best_i best.
  induction xs as [|x r IH]; intros pre best_i best Hb Hmax Hfirst; cbv zeta.
  - cbn [idxmax_from]. rewrite app_nil_r. eauto.
  - cbn [idxmax_from].
    assert (Hlen : List.length (pre ++ [x]) = S (List.length pre))
      by (rewrite length_app; simpl; lia).
    assert (Happ : pre ++ x :: r = (pre ++ [x]) ++ r)
      by (rewrite <- app_assoc; reflexivity).
    assert (Hbi : (best_i < List.length pre)%nat)
      by (apply nth_error_Some; congruence).
    destruct (Qltb best x) eqn:E.
    + apply Qltb_lt in E.
      specialize (IH (pre ++ [x]) (List.length pre) x).
      rewrite Hlen in IH. rewrite Happ. apply IH.
      * rewrite nth_error_app2, Nat.sub_diag by lia. reflexivity.
      * intros j y Hj.
        destruct (Nat.lt_ge_cases j (List.length pre)) as [Hlt|Hge].
        -- rewrite nth_error_app1 in Hj by assumption.
           apply Hmax in Hj. lra.
        -- rewrite nth_error_app2 in Hj by assumption.
           destruct (j - List.length pre)%nat as [|n]; simpl in Hj.
           ++ injection Hj as <-. lra.
           ++ destruct n; discriminate.
      * intros j y Hlt Hj.
        rewrite nth_error_app1 in Hj by assumption.
        apply Hmax in Hj. lra.
    + apply Qltb_ge in E.
      specialize (IH (pre ++ [x]) best_i best).
      rewrite Hlen in IH. rewrite Happ. apply IH.
      * rewrite nth_error_app1 by assumption. exact Hb.
      * intros j y Hj.
        destruct (Nat.lt_ge_cases j (List.length pre)) as [Hlt|Hge].
        -- rewrite nth_error_app1 in Hj by assumption.
           apply Hmax in Hj. exact Hj.
        -- rewrite nth_error_app2 in Hj by assumption.
           destruct (j - List.length pre)%nat as [|n]; simpl in Hj.
           ++ injection Hj as <-. exact E.
           ++ destruct n; discriminate.
      * intros j y Hlt Hj.
        rewrite nth_error_app1 in Hj by lia.
        apply (Hfirst j y Hlt Hj).
Qed.

Lemma idxmax_spec (xs : list Q) :
  xs <> [] ->
  exists k m,
    idxmax xs = Ok k
    /\ nth_error xs k = Some m
    /\ (forall j x, nth_error xs j = Some x -> x <= m)
    /\ (forall j x, (j < k)%nat -> nth_error xs j = Some x -> x < m).
Proof.
  destruct xs as [|x r]; [contradiction|]. intros _.
  destruct (idxmax_from_spec [x] r 0 x) as (m & Hm & Hmax & Hfirst).
  - reflexivity.
  - intros [|[|j]] y Hj; simpl in Hj; try discriminate.
    injection Hj as <-. lra.
  - intros j y Hlt. lia.
  - exists (idxmax_from r 1 0 x), m. repeat split; assumption.
Qed.

(** C9: on a non-empty series [evaluate_warrant3] takes as peak the hour
    with the largest major+minor total, the first such hour in input order;
    the verdict is met iff the threshold interpolated at the peak's major
    volume exists and the peak's minor volume reaches it; and when the
    peak's major volume is below the curve's first breakpoint the verdict is
    not met with the message "Major volume below curve range", a message
    given in no other case. *)
Theorem evaluate_warrant3_peak_hour (df : list HourlyCount)
  (major_lanes minor_lanes : Z) (speed population : Q) :
  df <> [] ->
  let roles := resolve_roles df in
  let total := fun row => cell row (fst roles) + cell row (snd roles) in
  exists curve first_point r i peak,
    curve_for WARRANT3_CURVES (curve_pct speed population)
      (get_lane_key major_lanes minor_lanes) = Ok curve
    /\ hd_error (sorted_by_x curve) = Some first_point
    /\ evaluate_warrant3 (Some df) major_lanes minor_lanes speed population
       = Ok r
    /\ nth_error df i = Some peak
    /\ (forall j row, nth_error df j = Some row -> total row <= total peak)
    /\ (forall j row, (j < i)%nat -> nth_error df j = Some row ->
        total row < total peak)
    /\ W3.peak_hour r = Some (Hour peak)
    /\ W3.peak_major r = Some (cell peak (fst roles))
    /\ W3.peak_minor r = Some (cell peak (snd roles))
    /\ interpolate_threshold curve (cell peak (fst roles))
       = Ok (W3.threshold r)
    /\ (W3.met r = Some true
        <-> exists t, W3.threshold r = Some t /\ t <= cell peak (snd roles))
    /\ (W3.met r = Some true \/ W3.met r = Some false)
    /\ (cell peak (fst roles) < fst first_point ->
        W3.threshold r = None /\ W3.met r = Some false
        /\ W3.details r = [Lit "NOT MET: Major volume below curve range"])
    /\ (fst first_point <= cell peak (fst roles) ->
        W3.threshold r <> None
        /\ W3.details r <> [Lit "NOT MET: Major volume below curve range"]).
Proof.
  intros Hne roles total.
  destruct (warrant3_curve_total (curve_pct speed population)
              (get_lane_key major_lanes minor_lanes))
    as (curve & Hcurve & Hgood);
    [apply curve_pct_cases | apply get_lane_key_cases |].
  assert (Hfix : sorted_by_x curve = curve).
  { apply sorted_by_x_fixed, strictly_increasing_ascending, Hgood. }
  destruct (idxmax_spec (totals df (fst roles) (snd roles)))
    as (i & m & Hi & Hm & Hmax & Hfirst).
  { destruct df; [contradiction | discriminate]. }
  unfold totals in Hm, Hmax, Hfirst.
  rewrite nth_error_map in Hm.
  destruct (nth_error df i) as [peak|] eqn:Hpeak; [|discriminate].
  cbn [option_map] in Hm. injection Hm as <-.
  destruct (interpolate_good_curve 70 curve (cell peak (fst roles)) Hgood)
    as (p0 & rest & Ec & Hcase).
  exists curve, p0.
  unfold evaluate_warrant3.
  assert (El : (List.length df <? 1)%nat = false)
    by (destruct df; [contradiction | reflexivity]).
  rewrite El, Hcurve. cbn [bind].
  fold roles. destruct roles as [major_col minor_col] eqn:Er.
  cbn [fst snd] in *.
  rewrite Hi. cbn [bind]. unfold index. rewrite Hpeak. cbn [bind].
  assert (Hmax' : forall j row, nth_error df j = Some row ->
                    total row <= total peak).
  { intros j row Hj. apply (Hmax j).
    rewrite nth_error_map, Hj. reflexivity. }
  assert (Hfirst' : forall j row, (j < i)%nat -> nth_error df j = Some row ->
                      total row < total peak).
  { intros j row Hlt Hj. apply (Hfirst j _ Hlt).
    rewrite nth_error_map, Hj. reflexivity. }
  destruct Hcase as [(Hlow & Hint) | (Hhigh & t & Hint & Ht)];
    rewrite Hint; cbn [bind truthy above].
  - exists (W3.mkResult (Some false) (Some (Hour peak))
              (Some (cell peak major_col)) (Some (cell peak minor_col)) None
              [Lit "NOT MET: Major volume below curve range"] (Some curve)
              (Some (curve_pct speed population))
              (Some (street_name major_col)) (Some (street_name minor_col))),
      i, peak.
    cbn [W3.met W3.peak_hour W3.peak_major W3.peak_minor W3.threshold
         W3.details].
    split; [reflexivity|].
    split; [rewrite Hfix, Ec; reflexivity|]. split; [reflexivity|].
    split; [exact Hpeak|]. split; [exact Hmax'|]. split; [exact Hfirst'|].
    do 3 (split; [reflexivity|]). split; [exact Hint|].
    split; [split; [discriminate | intros (t & E & _); discriminate]|].
    split; [tauto|].
    split; [intros _; repeat split; reflexivity|].
    intro H. lra.
  - assert (Enz : Qeq_bool t 0 = false).
    { destruct (Qeq_bool t 0) eqn:E; [|reflexivity].
      apply Qeq_bool_iff in E. lra. }
    rewrite Enz. cbn [negb format_0f bind].
    eexists; exists i, peak.
    cbn [W3.met W3.peak_hour W3.peak_major W3.peak_minor W3.threshold
         W3.details].
    split; [reflexivity|].
    split; [rewrite Hfix, Ec; reflexivity|]. split; [reflexivity|].
    split; [exact Hpeak|]. split; [exact Hmax'|]. split; [exact Hfirst'|].
    do 3 (split; [reflexivity|]). split; [exact Hint|].
    split.
    { split.
      - intro H. injection H as H. exists t. split; [reflexivity|].
        apply Qgeb_le. exact H.
      - intros (t' & E & H). injection E as <-.
        apply Qgeb_le in H. rewrite H. reflexivity. }
    split; [destruct (Qgeb (cell peak minor_col) t); tauto|].
    split; [intro H; lra|].
    intros _. split; discriminate.
Qed.

Lemma evaluate_warrant3_peak_hour_witness :
  exists r,
    evaluate_warrant3 (Some [mkHour "07:00" 250 40]) 1 1 35 15000 = Ok r
    /\ W3.met r = Some false
    /\ W3.details r = [Lit "NOT MET: Major volume below curve range"].
Proof.
  destruct (evaluate_warrant3_peak_hour [mkHour "07:00" 250 40] 1 1 35 15000)
    as (curve & p0 & r & i & peak & Hc & Hp0 & Hr & Hpeak & _ & _ & _ & _ & _
        & _ & _ & _ & Hbelow & _).
  - discriminate.
  - exists r. split; [exact Hr|].
    vm_compute in Hc. injection Hc as <-.
    vm_compute in Hp0. injection Hp0 as <-.
    destruct i as [|i]; [|destruct i; discriminate].
    injection Hpeak as <-.
    apply Hbelow. vm_compute. reflexivity.
Defined.

(** ** Insufficient data *)

(** Counterexample to C3 as stated: with the series missing and gates A and
    B passed, Warrant 7 returns met = False, not the not-applicable None. *)
Lemma insufficient_data_warrant7_counterexample :
  short_of 8 None
  /\ exists r,
      evaluate_warrant7 None 1 1 35 15000 5 true = Ok r
      /\ W7.met r = Some false
      /\ W7.met r <> None.
Proof.
  split; [exact I|].
  eexists. split; [reflexivity|].
  split; [reflexivity | discriminate].
Qed.

(** C3, amended: with a series that is missing or shorter than the
    warrant's minimum, Warrants 1, 2 and 3 (minimums 8, 4, 1) return not
    applicable (met is None); Warrant 4 (minimum 1) returns not applicable
    once its distance and gap gates have passed and not met when one of
    them fails; Warrant 7 (minimum 8) returns a plain not-met verdict with
    condition_c false.  None of them raises. *)
Theorem insufficient_data_verdicts :
  (forall traffic_df major_lanes minor_lanes speed population,
      short_of 8 traffic_df ->
      exists r,
        evaluate_warrant1 traffic_df major_lanes minor_lanes speed population
        = Ok r
        /\ W1.met r = None)
  /\ (forall traffic_df major_lanes minor_lanes speed population,
         short_of 4 traffic_df ->
         exists r,
           evaluate_warrant2 traffic_df major_lanes minor_lanes speed
             population = Ok r
           /\ W2.met r = None)
  /\ (forall traffic_df major_lanes minor_lanes speed population,
         short_of 1 traffic_df ->
         exists r,
           evaluate_warrant3 traffic_df major_lanes minor_lanes speed
             population = Ok r
           /\ W3.met r = None)
  /\ (forall traffic_df speed population ped_peak ped_4hr gaps_per_hour
             dist_to_signal,
         short_of 1 traffic_df ->
         exists r,
           evaluate_warrant4 traffic_df speed population ped_peak ped_4hr
             gaps_per_hour dist_to_signal = Ok r
           /\ (300 <= dist_to_signal -> gaps_per_hour < 60 -> W4.met r = None)
           /\ (dist_to_signal < 300 \/ 60 <= gaps_per_hour ->
               W4.met r = Some false))
  /\ (forall traffic_df major_lanes minor_lanes speed population
             correctable_crashes alternatives_tried,
         short_of 8 traffic_df ->
         exists r,
           evaluate_warrant7 traffic_df major_lanes minor_lanes speed
             population correctable_crashes alternatives_tried = Ok r
           /\ W7.met r = Some false
           /\ W7.condition_c r = false).
Proof.
  split; [|split; [|split; [|split]]].
  - intros [df|] ml mnl s p Hshort; unfold evaluate_warrant1.
    + simpl in Hshort. apply Nat.ltb_lt in Hshort. rewrite Hshort.
      eexists; split; reflexivity.
    + eexists; split; reflexivity.
  - intros [df|] ml mnl s p Hshort; unfold evaluate_warrant2.
    + simpl in Hshort. apply Nat.ltb_lt in Hshort. rewrite Hshort.
      eexists; split; reflexivity.
    + eexists; split; reflexivity.
  - intros [df|] ml mnl s p Hshort; unfold evaluate_warrant3.
    + simpl in Hshort. apply Nat.ltb_lt in Hshort. rewrite Hshort.
      eexists; split; reflexivity.
    + eexists; split; reflexivity.
  - intros traffic_df s p pp p4 gaps dist Hshort.
    destruct (Qlt_le_dec dist 300) as [Hd|Hd];
      [|destruct (Qlt_le_dec gaps 60) as [Hg|Hg]].
    + destruct (evaluate_warrant4_gate_fails traffic_df s p pp p4 gaps dist)
        as (r & Hr & Hm); [left; exact Hd|].
      exists r. split; [exact Hr|]. split; [intros; lra | intros; exact Hm].
    + destruct (evaluate_warrant4_short traffic_df s p pp p4 gaps dist
                  Hd Hg Hshort) as (r & Hr & Hm).
      exists r. split; [exact Hr|].
      split; [intros; exact Hm | intros [H|H]; lra].
    + destruct (evaluate_warrant4_gate_fails traffic_df s p pp p4 gaps dist)
        as (r & Hr & Hm); [right; exact Hg|].
      exists r. split; [exact Hr|]. split; [intros; lra | intros; exact Hm].
  - intros traffic_df ml mnl s p crashes alt Hshort.
    unfold evaluate_warrant7.
    destruct alt; cbn [negb]; [|eexists; repeat split; reflexivity].
    destruct (Qltb crashes 5); [eexists; repeat split; reflexivity|].
    destruct traffic_df as [df|]; [|eexists; repeat split; reflexivity].
    simpl in Hshort. apply Nat.ltb_lt in Hshort. rewrite Hshort.
    eexists; repeat split; reflexivity.
Qed.

Lemma insufficient_data_verdicts_witness :
  exists r,
    evaluate_warrant1 (Some [mkHour "07:00" 600 200]) 1 1 35 15000 = Ok r
    /\ W1.met r = None.
Proof.
  apply (proj1 insufficient_data_verdicts
           (Some [mkHour "07:00" 600 200]) 1%Z 1%Z 35 15000).
  simpl. lia.
Defined.

(** * Further properties of the engine *)

(** ** More on the interpolator *)








Lemma strictly_sorted_perm_eq (l1 l2 : list point) :
  strictly_increasing_x l1 -> ascending_x l2 -> Permutation l1 l2 -> l1 = l2.
Proof.
  unfold strictly_increasing_x, ascending_x.
  revert l2.
  induction l1 as [|a l1' IH]; intros l2 H1 H2 Hp.
  - apply Permutation_nil in Hp. congruence.
  - destruct l2 as [|b l2'];
      [apply Permutation_sym, Permutation_nil in Hp; discriminate|].
    inversion H1 as [|? ? H1' Ha]; subst.
    inversion H2 as [|? ? H2' Hb]; subst.
    rewrite Forall_forall in Ha, Hb.
    assert (Hab : a = b).
    { assert (Hina : In a (b :: l2'))
        by (apply (Permutation_in _ Hp); left; reflexivity).
      assert (Hinb : In b (a :: l1'))
        by (apply (Permutation_in _ (Permutation_sym Hp)); left; reflexivity).
      destruct Hina as [->|Hina]; [reflexivity|].
      destruct Hinb as [->|Hinb]; [reflexivity|].
      apply Ha in Hinb. apply Hb in Hina. lra. }
    subst b. f_equal.
    apply IH; auto. apply (Permutation_cons_inv Hp).
Qed.

(** X4: when the points have pairwise different major_vph, the order in
    which a curve lists them does not matter. *)
Theorem interpolate_threshold_order_independent (c1 c2 : list point) (v : Q) :
  Permutation c1 c2 ->
  strictly_increasing_x (sorted_by_x c1) ->
  interpolate_threshold c1 v = interpolate_threshold c2 v.
Proof.
  intros Hp Hs.
  assert (E : sorted_by_x c1 = sorted_by_x c2).
  { apply strictly_sorted_perm_eq; [exact Hs | apply sorted_by_x_ascending |].
    eapply perm_trans; [apply sorted_by_x_perm|].
    eapply perm_trans; [exact Hp|].
    apply Permutation_sym, sorted_by_x_perm. }
  unfold interpolate_threshold. rewrite E. reflexivity.
Qed.

Lemma interpolate_threshold_order_independent_witness :
  interpolate_threshold [(500, 90); (300, 115); (400, 100)] 450
  = interpolate_threshold [(300, 115); (400, 100); (500, 90)] 450.
Proof.
  apply interpolate_threshold_order_independent.
  - apply perm_trans with [(300, 115); (500, 90); (400, 100)].
    + apply perm_swap.
    + apply perm_skip, perm_swap.
  - repeat constructor.
Defined.

(** ** Warrant 2 *)

Lemma warrant2_curve_total (pct : string) (lk : lane_key) :
  pct = "70"%string \/ pct = "100"%string ->
  In lk [(1, 1)%Z; (1, 2)%Z; (2, 1)%Z; (2, 2)%Z] ->
  exists c, curve_for WARRANT2_CURVES pct lk = Ok c /\ good_curve 28 c.
Proof.
  intros [-> | ->] Hlk; each_key Hlk;
    (eexists; split; [reflexivity | good_curve_tac]).
Qed.

(** The counter of the loop is the count of hours on or above the curve, and
    the loop appends one entry per row, in order. *)
Lemma warrant2_loop_count (curve : list point) (major_col minor_col : column)
  (df : list HourlyCount) (n0 : nat) (h0 : list W2.hourly) :
  curve <> [] ->
  exists hs,
    foldM (warrant2_body curve major_col minor_col) df (n0, h0)
    = Ok ((n0 + count_hours
                  (hour_above_curve curve (major_col, minor_col)) df)%nat,
          h0 ++ hs)
    /\ map W2.hour hs = map Hour df.
Proof.
  intro Hne. revert n0 h0.
  induction df as [|row df IH]; intros n0 h0.
  - exists []. unfold count_hours. simpl.
    rewrite Nat.add_0_r, app_nil_r. split; reflexivity.
  - cbn [foldM]. unfold warrant2_body at 1.
    destruct (interpolate_threshold_total curve (cell row major_col) Hne)
      as [t Ht].
    rewrite Ht. cbn [bind].
    destruct (IH (bump (above t (cell row minor_col)) n0)
                (h0 ++ [W2.mkHourly (Hour row) (cell row major_col)
                          (cell row minor_col) t
                          (above t (cell row minor_col))]))
      as (hs & Hhs & Hmap).
    eexists (_ :: hs). rewrite Hhs, count_hours_cons, bump_add.
    unfold hour_above_curve at 2. cbn [fst snd]. rewrite Ht.
    rewrite <- app_assoc. cbn [app map W2.hour].
    split; [f_equal; f_equal; lia | f_equal; exact Hmap].
Qed.

(** X5: [evaluate_warrant2] never raises.  On fewer than 4 rows it is not
    applicable; otherwise hours_met is the number of rows whose minor
    volume reaches the threshold interpolated at their major volume, the
    verdict is met iff that number is at least 4, and the per-hour results
    list the rows in input order.  A row whose major volume is below the
    curve's first breakpoint never counts. *)
Theorem evaluate_warrant2_verdict (traffic_df : option (list HourlyCount))
  (major_lanes minor_lanes : Z) (speed population : Q) :
  exists curve r,
    curve_for WARRANT2_CURVES (curve_pct speed population)
      (get_lane_key major_lanes minor_lanes) = Ok curve
    /\ evaluate_warrant2 traffic_df major_lanes minor_lanes speed population
       = Ok r
    /\ (short_of 4 traffic_df ->
        W2.met r = None /\ W2.hours_met r = 0%nat)
    /\ (forall df, traffic_df = Some df -> (4 <= List.length df)%nat ->
        let n := count_hours (hour_above_curve curve (resolve_roles df)) df in
        W2.hours_met r = n
        /\ W2.met r = Some (4 <=? n)%nat
        /\ (n <= List.length df)%nat
        /\ exists hs,
            W2.hourly_results r = Some hs /\ map W2.hour hs = map Hour df)
    /\ (forall roles row p0,
           hd_error curve = Some p0 -> cell row (fst roles) < fst p0 ->
           hour_above_curve curve roles row = false).
Proof.
  destruct (warrant2_curve_total (curve_pct speed population)
              (get_lane_key major_lanes minor_lanes))
    as (curve & Hcurve & Hgood);
    [apply curve_pct_cases | apply get_lane_key_cases |].
  assert (Hne : curve <> []) by apply Hgood.
  exists curve.
  assert (Hbelow : forall roles row p0,
             hd_error curve = Some p0 -> cell row (fst roles) < fst p0 ->
             hour_above_curve curve roles row = false).
  { intros roles row p0 Hhd Hlt. unfold hour_above_curve.
    destruct (interpolate_good_curve 28 curve (cell row (fst roles)) Hgood)
      as (q0 & rest & Ec & [(_ & Hint) | (Hge & _)]).
    - rewrite Hint. reflexivity.
    - rewrite Ec in Hhd. injection Hhd as <-. lra. }
  unfold evaluate_warrant2.
  destruct traffic_df as [df|].
  2:{ eexists. split; [exact Hcurve|]. split; [reflexivity|].
      split; [intros _; split; reflexivity|].
      split; [intros df E; discriminate | exact Hbelow]. }
  destruct (Nat.ltb_spec (List.length df) 4) as [Hlt|Hge].
  { eexists. split; [exact Hcurve|]. split; [reflexivity|].
    split; [intros _; split; reflexivity|].
    split; [|exact Hbelow].
    intros df' E Hlen. injection E as <-. lia. }
  rewrite Hcurve. cbn [bind].
  destruct (resolve_roles df) as [major_col minor_col] eqn:Er.
  destruct (warrant2_loop_count curve major_col minor_col df 0 [] Hne)
    as (hs & Hhs & Hmap).
  rewrite Hhs. cbn [bind plus app].
  eexists. split; [reflexivity|]. split; [reflexivity|].
  split; [intro Hshort; simpl in Hshort; lia|].
  split; [|exact Hbelow].
  intros df' E _. injection E as <-. rewrite Er.
  cbn [W2.hours_met W2.met W2.hourly_results].
  split; [reflexivity|]. split; [reflexivity|].
  split; [apply count_hours_le_length|].
  exists hs. split; [reflexivity | exact Hmap].
Qed.

Lemma evaluate_warrant2_verdict_witness :
  exists r,
    evaluate_warrant2 (Some (repeat (mkHour "07:00" 600 200) 4)) 1 1 35 15000
    = Ok r
    /\ W2.met r = Some true.
Proof.
  destruct (evaluate_warrant2_verdict
              (Some (repeat (mkHour "07:00" 600 200) 4)) 1 1 35 15000)
    as (curve & r & Hc & Hr & _ & H & _).
  exists r. split; [exact Hr|].
  destruct (H _ eq_refl ltac:(simpl; lia)) as (_ & Hm & _).
  rewrite Hm. vm_compute in Hc. injection Hc as <-.
  vm_compute. reflexivity.
Defined.

(** ** Relations between the tables *)

Lemma count_hours_mono (f g : HourlyCount -> bool) (df : list HourlyCount) :
  (forall row, f row = true -> g row = true) ->
  (count_hours f df <= count_hours g df)%nat.
Proof.
  intro H. induction df as [|row df IH].
  - unfold count_hours. simpl. lia.
  - rewrite !count_hours_cons.
    destruct (f row) eqn:Ef; [rewrite (H row Ef)|destruct (g row)]; lia.
Qed.

Lemma hour_above_curve_iff (curve : list point) (roles : column * column)
  (row : HourlyCount) :
  hour_above_curve curve roles row = true
  <-> exists t,
        interpolate_threshold curve (cell row (fst roles)) = Ok (Some t)
        /\ t <= cell row (snd roles).
Proof.
  unfold hour_above_curve.
  destruct (interpolate_threshold curve (cell row (fst roles))) as [[t|]|e];
    cbn [above].
  - rewrite Qgeb_le. split; [eauto|].
    intros (t' & E & H). injection E as ->. exact H.
  - split; [discriminate | intros (t' & E & _); discriminate].
  - split; [discriminate | intros (t' & E & _); discriminate].
Qed.

(** One curve lies on or below another from the other's first point on. *)
Lemma curve_below (lo : Q) (x2 y2 : Q) (r2 : list point) (x3 y3 : Q)
  (r3 : list point) (v minor : Q) :
  strictly_increasing_x ((x2, y2) :: r2) ->
  nonincreasing_y ((x2, y2) :: r2) ->
  good_curve lo ((x3, y3) :: r3) ->
  x2 <= x3 ->
  walk x2 y2 r2 x3 <= lo ->
  (exists t, interpolate_threshold ((x3, y3) :: r3) v = Ok (Some t)
             /\ t <= minor) ->
  exists t, interpolate_threshold ((x2, y2) :: r2) v = Ok (Some t)
            /\ t <= minor.
Proof.
  intros Hs2 Hy2 Hg3 Hx Hw (t3 & Ht3 & Hm).
  destruct (interpolate_good_curve lo _ v Hg3)
    as (p0 & rest & E & [(_ & Hint) | (Hge & t & Hint & Hlo)]);
    [rewrite Hint in Ht3; discriminate|].
  injection E as <- <-. cbn [fst] in Hge.
  rewrite Hint in Ht3. injection Ht3 as <-.
  assert (Ha2 := strictly_increasing_ascending _ Hs2).
  rewrite (interpolate_threshold_sorted _ x2 y2 r2 v
             (sorted_by_x_fixed _ Ha2)).
  assert (E0 : Qltb v x2 = false) by (apply Qltb_ge; lra).
  rewrite E0. eexists. split; [reflexivity|].
  assert (walk x2 y2 r2 v <= walk x2 y2 r2 x3)
    by (apply walk_nonincreasing; auto).
  lra.
Qed.

Lemma warrant3_curve_above_warrant2 (major_lanes minor_lanes : Z)
  (speed population : Q) :
  exists curve2 curve3,
    curve_for WARRANT2_CURVES (curve_pct speed population)
      (get_lane_key major_lanes minor_lanes) = Ok curve2
    /\ curve_for WARRANT3_CURVES (curve_pct speed population)
         (get_lane_key major_lanes minor_lanes) = Ok curve3
    /\ forall roles row,
         hour_above_curve curve3 roles row = true ->
         hour_above_curve curve2 roles row = true.
Proof.
  assert (Hlk := get_lane_key_cases major_lanes minor_lanes).
  destruct (curve_pct_cases speed population) as [-> | ->]; each_key Hlk;
    (do 2 eexists; split; [reflexivity|]; split; [reflexivity|];
     intros roles row H;
     apply hour_above_curve_iff; apply hour_above_curve_iff in H;
     revert H;
     first [ solve [compare_curves (curve_below 70)]
           | solve [compare_curves (curve_below 100)]
           | solve [compare_curves (curve_below 105)]
           | solve [compare_curves (curve_below 150)] ]).
Qed.

Lemma evaluate_warrant2_run (df : list HourlyCount)
  (major_lanes minor_lanes : Z) (speed population : Q) :
  (4 <= List.length df)%nat ->
  exists curve r,
    curve_for WARRANT2_CURVES (curve_pct speed population)
      (get_lane_key major_lanes minor_lanes) = Ok curve
    /\ evaluate_warrant2 (Some df) major_lanes minor_lanes speed population
       = Ok r
    /\ W2.hours_met r
       = count_hours (hour_above_curve curve (resolve_roles df)) df.
Proof.
  intro Hlen.
  destruct (warrant2_curve_total (curve_pct speed population)
              (get_lane_key major_lanes minor_lanes))
    as (curve & Hcurve & Hgood);
    [apply curve_pct_cases | apply get_lane_key_cases |].
  exists curve. unfold evaluate_warrant2.
  apply Nat.ltb_ge in Hlen. rewrite Hlen, Hcurve. cbn [bind].
  destruct (resolve_roles df) as [major_col minor_col].
  destruct (warrant2_loop_count curve major_col minor_col df 0 []
              ltac:(apply Hgood)) as (hs & Hhs & _).
  rewrite Hhs. cbn [bind plus].
  eexists. repeat split; reflexivity.
Qed.

Lemma evaluate_warrant3_run (df : list HourlyCount)
  (major_lanes minor_lanes : Z) (speed population : Q) :
  df <> [] ->
  exists curve peak r,
    curve_for WARRANT3_CURVES (curve_pct speed population)
      (get_lane_key major_lanes minor_lanes) = Ok curve
    /\ In peak df
    /\ evaluate_warrant3 (Some df) major_lanes minor_lanes speed population
       = Ok r
    /\ W3.met r = Some (hour_above_curve curve (resolve_roles df) peak).
Proof.
  intro Hne.
  destruct (warrant3_curve_total (curve_pct speed population)
              (get_lane_key major_lanes minor_lanes))
    as (curve & Hcurve & Hgood);
    [apply curve_pct_cases | apply get_lane_key_cases |].
  destruct (idxmax_spec (totals df (fst (resolve_roles df))
                           (snd (resolve_roles df))))
    as (i & m & Hi & Hm & _).
  { destruct df; [contradiction | discriminate]. }
  unfold totals in Hm. rewrite nth_error_map in Hm.
  destruct (nth_error df i) as [peak|] eqn:Hpeak; [|discriminate].
  exists curve, peak.
  unfold evaluate_warrant3.
  assert (El : (List.length df <? 1)%nat = false)
    by (destruct df; [contradiction | reflexivity]).
  rewrite El, Hcurve. cbn [bind].
  destruct (resolve_roles df) as [major_col minor_col]. cbn [fst snd] in *.
  rewrite Hi. cbn [bind]. unfold index. rewrite Hpeak. cbn [bind].
  unfold hour_above_curve. cbn [fst snd].
  destruct (interpolate_good_curve 70 curve (cell peak major_col) Hgood)
    as (p0 & rest & _ & [(_ & Hint) | (_ & t & Hint & Ht)]);
    rewrite Hint; cbn [bind truthy above].
  - eexists. split; [reflexivity|].
    split; [apply (nth_error_In _ _ Hpeak)|]. split; reflexivity.
  - assert (Enz : Qeq_bool t 0 = false).
    { destruct (Qeq_bool t 0) eqn:E; [|reflexivity].
      apply Qeq_bool_iff in E. lra. }
    rewrite Enz. cbn [negb format_0f bind].
    eexists. split; [reflexivity|].
    split; [apply (nth_error_In _ _ Hpeak)|]. split; reflexivity.
Qed.

Lemma count_hours_positive (test : HourlyCount -> bool) (row : HourlyCount)
  (df : list HourlyCount) :
  In row df -> test row = true -> (1 <= count_hours test df)%nat.
Proof.
  intros Hin Ht.
  assert (Hf : In row (filter test df))
    by (apply filter_In; split; assumption).
  unfold count_hours.
  destruct (filter test df); [destruct Hf | simpl; lia].
Qed.

(** X6: for every site, an hour that lies on or above the Warrant 3 curve
    also lies on or above the Warrant 2 curve of the same lanes and tier;
    so whenever Warrant 3 is met on a series of at least 4 rows, Warrant 2
    counts at least one hour on that series. *)
Theorem warrant3_hour_is_warrant2_hour (major_lanes minor_lanes : Z)
  (speed population : Q) :
  exists curve2 curve3,
    curve_for WARRANT2_CURVES (curve_pct speed population)
      (get_lane_key major_lanes minor_lanes) = Ok curve2
    /\ curve_for WARRANT3_CURVES (curve_pct speed population)
         (get_lane_key major_lanes minor_lanes) = Ok curve3
    /\ (forall roles row,
           hour_above_curve curve3 roles row = true ->
           hour_above_curve curve2 roles row = true)
    /\ forall df r3 r2,
         (4 <= List.length df)%nat ->
         evaluate_warrant3 (Some df) major_lanes minor_lanes speed population
         = Ok r3 ->
         W3.met r3 = Some true ->
         evaluate_warrant2 (Some df) major_lanes minor_lanes speed population
         = Ok r2 ->
         (1 <= W2.hours_met r2)%nat.
Proof.
  destruct (warrant3_curve_above_warrant2 major_lanes minor_lanes speed
              population) as (curve2 & curve3 & Hc2 & Hc3 & Habove).
  exists curve2, curve3. do 3 (split; [assumption|]).
  intros df r3 r2 Hlen Hr3 Hmet Hr2.
  destruct (evaluate_warrant2_run df major_lanes minor_lanes speed population
              Hlen) as (c2 & r2' & Hc2' & Hr2' & Hh).
  rewrite Hc2 in Hc2'. injection Hc2' as <-.
  rewrite Hr2 in Hr2'. injection Hr2' as <-.
  destruct (evaluate_warrant3_run df major_lanes minor_lanes speed population)
    as (c3 & peak & r3' & Hc3' & Hin & Hr3' & Hm).
  { destruct df; [simpl in Hlen; lia | discriminate]. }
  rewrite Hc3 in Hc3'. injection Hc3' as <-.
  rewrite Hr3 in Hr3'. injection Hr3' as <-.
  rewrite Hm in Hmet. injection Hmet as Hmet.
  rewrite Hh. apply (count_hours_positive _ peak); [exact Hin|].
  apply Habove. exact Hmet.
Qed.

Lemma warrant3_hour_is_warrant2_hour_witness :
  exists r2,
    evaluate_warrant2 (Some (repeat (mkHour "07:00" 600 200) 4)) 1 1 35 15000
    = Ok r2
    /\ (1 <= W2.hours_met r2)%nat.
Proof.
  destruct (warrant3_hour_is_warrant2_hour 1 1 35 15000)
    as (c2 & c3 & _ & _ & _ & H).
  eexists. split; [vm_compute; reflexivity|].
  eapply (H (repeat (mkHour "07:00" 600 200) 4)).
  - simpl. lia.
  - vm_compute. reflexivity.
  - reflexivity.
  - vm_compute. reflexivity.
Defined.

Lemma warrant1_tier_nesting (cond : string) (lk : lane_key)
  (speed population : Q) :
  cond = "condition_a"%string \/ cond = "condition_b"%string ->
  In lk [(1, 1)%Z; (1, 2)%Z; (2, 1)%Z; (2, 2)%Z] ->
  exists t tc,
    warrant1_threshold cond lk (get_threshold_percentage speed population false)
    = Ok t
    /\ warrant1_threshold cond lk
         (get_threshold_percentage speed population true) = Ok tc
    /\ fst tc <= fst t /\ snd tc <= snd t.
Proof.
  intros Hcond Hlk. unfold get_threshold_percentage.
  destruct (Qltb 40 speed || Qltb population 10000);
    destruct Hcond as [-> | ->]; each_key Hlk;
    (do 2 eexists; split; [reflexivity|]; split; [reflexivity|];
     split; vm_compute; discriminate).
Qed.

Lemma hour_meets_weaken (t tc : Q * Q) (roles : column * column)
  (row : HourlyCount) :
  fst tc <= fst t -> snd tc <= snd t ->
  hour_meets t roles row = true -> hour_meets tc roles row = true.
Proof.
  unfold hour_meets. rewrite !meets_iff. intros H1 H2 [Ha Hb]. split; lra.
Qed.

(** X7: the combination tier is never harder than the primary tier: for
    every site, an hour that meets Condition A (or B) at the primary
    percentage meets it at the combination percentage, so on every series
    the combination-tier hour counts are at least the primary-tier ones. *)
Theorem warrant1_combination_tier_easier (major_lanes minor_lanes : Z)
  (speed population : Q) :
  let lk := get_lane_key major_lanes minor_lanes in
  let pct := get_threshold_percentage speed population false in
  let pct_combo := get_threshold_percentage speed population true in
  exists ta tb tac tbc,
    warrant1_threshold "condition_a" lk pct = Ok ta
    /\ warrant1_threshold "condition_b" lk pct = Ok tb
    /\ warrant1_threshold "condition_a" lk pct_combo = Ok tac
    /\ warrant1_threshold "condition_b" lk pct_combo = Ok tbc
    /\ (forall roles row,
           (hour_meets ta roles row = true -> hour_meets tac roles row = true)
           /\ (hour_meets tb roles row = true ->
               hour_meets tbc roles row = true))
    /\ forall roles df,
         (count_hours (hour_meets ta roles) df
          <= count_hours (hour_meets tac roles) df)%nat
         /\ (count_hours (hour_meets tb roles) df
             <= count_hours (hour_meets tbc roles) df)%nat.
Proof.
  intros lk pct pct_combo.
  destruct (warrant1_tier_nesting "condition_a" lk speed population)
    as (ta & tac & Hta & Htac & Ha1 & Ha2);
    [tauto | apply get_lane_key_cases |].
  destruct (warrant1_tier_nesting "condition_b" lk speed population)
    as (tb & tbc & Htb & Htbc & Hb1 & Hb2);
    [tauto | apply get_lane_key_cases |].
  exists ta, tb, tac, tbc.
  do 4 (split; [assumption|]).
  split.
  - intros roles row. split; apply hour_meets_weaken; assumption.
  - intros roles df.
    split; apply count_hours_mono; intro row;
      apply hour_meets_weaken; assumption.
Qed.

(** ** Warrant 1 and Warrant 7 *)

Lemma evaluate_warrant7_run (df : list HourlyCount)
  (major_lanes minor_lanes : Z) (speed population correctable_crashes : Q) :
  5 <= correctable_crashes -> (8 <= List.length df)%nat ->
  let lk := get_lane_key major_lanes minor_lanes in
  exists ta80 tb80 curve r,
    warrant1_threshold "condition_a" lk "80" = Ok ta80
    /\ warrant1_threshold "condition_b" lk "80" = Ok tb80
    /\ curve_for WARRANT3_CURVES (curve_pct speed population) lk = Ok curve
    /\ evaluate_warrant7 (Some df) major_lanes minor_lanes speed population
         correctable_crashes true = Ok r
    /\ W7.hours_meeting_volume r
       = count_hours (warrant7_volume_hour ta80 tb80 curve (resolve_roles df))
           df
    /\ W7.met r = Some (8 <=? W7.hours_meeting_volume r)%nat.
Proof.
  intros Hcr Hlen lk.
  destruct (warrant1_threshold_total "condition_a" lk "80") as [ta Hta];
    [tauto | apply get_lane_key_cases | simpl; tauto |].
  destruct (warrant1_threshold_total "condition_b" lk "80") as [tb Htb];
    [tauto | apply get_lane_key_cases | simpl; tauto |].
  destruct (warrant3_curve_total (curve_pct speed population) lk)
    as (curve & Hcurve & Hgood);
    [apply curve_pct_cases | apply get_lane_key_cases |].
  exists ta, tb, curve.
  unfold evaluate_warrant7. cbn [negb].
  apply Qltb_ge in Hcr. rewrite Hcr.
  apply Nat.ltb_ge in Hlen. rewrite Hlen.
  fold lk. rewrite Hta, Htb, Hcurve. cbn [bind].
  destruct (resolve_roles df) as [major_col minor_col].
  destruct (warrant7_loop_count ta tb curve major_col minor_col df 0 []
              ltac:(apply Hgood)) as [hs Hhs].
  rewrite Hhs. cbn [bind plus].
  destruct (8 <=? count_hours
                    (warrant7_volume_hour ta tb curve (major_col, minor_col))
                    df)%nat eqn:E;
    eexists; do 4 (split; [reflexivity|]);
    cbn [W7.hours_meeting_volume W7.met]; rewrite E; split; reflexivity.
Qed.

(** X8: at a site without reduction (speed at most 40 mph, population at
    least 10000), whenever Warrant 1 is met on a series, Warrant 7 is met on
    the same series as soon as alternatives were tried and there are at
    least 5 correctable crashes. *)
Theorem warrant1_met_gives_warrant7_volume
  (traffic_df : option (list HourlyCount)) (major_lanes minor_lanes : Z)
  (speed population correctable_crashes : Q) (r1 : W1.result) :
  speed <= 40 -> 10000 <= population ->
  evaluate_warrant1 traffic_df major_lanes minor_lanes speed population
  = Ok r1 ->
  W1.met r1 = Some true ->
  5 <= correctable_crashes ->
  exists r7,
    evaluate_warrant7 traffic_df major_lanes minor_lanes speed population
      correctable_crashes true = Ok r7
    /\ W7.met r7 = Some true.
Proof.
  intros Hs Hp Hr1 Hmet Hcr.
  destruct traffic_df as [df|]; [|injection Hr1 as <-; discriminate].
  destruct (Nat.ltb_spec (List.length df) 8) as [Hlt|Hge].
  { unfold evaluate_warrant1 in Hr1.
    apply Nat.ltb_lt in Hlt. rewrite Hlt in Hr1.
    injection Hr1 as <-. discriminate. }
  destruct (evaluate_warrant1_run df major_lanes minor_lanes speed population
              Hge) as (ta & tb & tac & tbc & r & Hta & Htb & Htac & Htbc
                       & Hr & Hv).
  rewrite Hr1 in Hr. injection Hr as <-.
  destruct (evaluate_warrant7_run df major_lanes minor_lanes speed population
              correctable_crashes Hcr Hge)
    as (ta80 & tb80 & curve & r7 & Hta80 & Htb80 & _ & Hr7 & Hh7 & Hm7).
  assert (Hpct : get_threshold_percentage speed population true = "80"%string).
  { unfold get_threshold_percentage.
    assert (E1 : Qltb 40 speed = false) by (apply Qltb_ge; exact Hs).
    assert (E2 : Qltb population 10000 = false) by (apply Qltb_ge; exact Hp).
    rewrite E1, E2. reflexivity. }
  rewrite Hpct in Htac, Htbc.
  rewrite Htac in Hta80. injection Hta80 as <-.
  rewrite Htbc in Htb80. injection Htb80 as <-.
  destruct (warrant1_tier_nesting "condition_a"
              (get_lane_key major_lanes minor_lanes) speed population)
    as (ta' & tac' & Hta' & Htac' & Ha1 & Ha2);
    [tauto | apply get_lane_key_cases |].
  destruct (warrant1_tier_nesting "condition_b"
              (get_lane_key major_lanes minor_lanes) speed population)
    as (tb' & tbc' & Htb' & Htbc' & Hb1 & Hb2);
    [tauto | apply get_lane_key_cases |].
  rewrite Hpct in Htac', Htbc'.
  rewrite Hta in Hta'. injection Hta' as <-.
  rewrite Htb in Htb'. injection Htb' as <-.
  rewrite Htac in Htac'. injection Htac' as <-.
  rewrite Htbc in Htbc'. injection Htbc' as <-.
  set (roles := resolve_roles df) in *.
  assert (Hca : (count_hours (hour_meets ta roles) df
                 <= count_hours (hour_meets tac roles) df)%nat)
    by (apply count_hours_mono; intro row; apply hour_meets_weaken;
        assumption).
  assert (Hcb : (count_hours (hour_meets tb roles) df
                 <= count_hours (hour_meets tbc roles) df)%nat)
    by (apply count_hours_mono; intro row; apply hour_meets_weaken;
        assumption).
  assert (Hva : (count_hours (hour_meets tac roles) df
                 <= count_hours (warrant7_volume_hour tac tbc curve roles) df)%nat).
  { apply count_hours_mono. intros row H. unfold warrant7_volume_hour.
    rewrite H. reflexivity. }
  assert (Hvb : (count_hours (hour_meets tbc roles) df
                 <= count_hours (warrant7_volume_hour tac tbc curve roles) df)%nat).
  { apply count_hours_mono. intros row H. unfold warrant7_volume_hour.
    rewrite H, orb_true_r. reflexivity. }
  exists r7. split; [exact Hr7|].
  rewrite Hm7, Hh7. f_equal. apply Nat.leb_le.
  cbv zeta in Hv.
  destruct (Nat.leb_spec 8 (count_hours (hour_meets ta roles) df)); [lia|].
  destruct (Nat.leb_spec 8 (count_hours (hour_meets tb roles) df)); [lia|].
  destruct (Nat.leb_spec 8 (count_hours (hour_meets tac roles) df)); [lia|].
  cbn [andb] in Hv. injection Hv as Hm _ _. congruence.
Qed.

Lemma warrant1_met_gives_warrant7_volume_witness :
  exists r7,
    evaluate_warrant7 (Some (repeat (mkHour "07:00" 600 200) 8)) 1 1 35 15000
      6 true = Ok r7
    /\ W7.met r7 = Some true.
Proof.
  eapply (warrant1_met_gives_warrant7_volume
            (Some (repeat (mkHour "07:00" 600 200) 8)) 1 1 35 15000 6).
  - vm_compute. discriminate.
  - vm_compute. discriminate.
  - vm_compute. reflexivity.
  - reflexivity.
  - vm_compute. discriminate.
Defined.

(** ** Exchanging the two streets *)

Lemma column_of_swap (df : list HourlyCount) :
  column_of (map swap_streets df) Street_1 = column_of df Street_2
  /\ column_of (map swap_streets df) Street_2 = column_of df Street_1.
Proof.
  unfold column_of. rewrite !map_map. split; reflexivity.
Qed.

Lemma warrant1_loop_swap (ta tb tac tbc : Q * Q) (maj min maj' min' : column)
  (df : list HourlyCount) (t0 : W1.tally) :
  (forall row, cell (swap_streets row) maj' = cell row maj) ->
  (forall row, cell (swap_streets row) min' = cell row min) ->
  fold_left (warrant1_body ta tb tac tbc maj' min') (map swap_streets df) t0
  = fold_left (warrant1_body ta tb tac tbc maj min) df t0.
Proof.
  intros Hmaj Hmin. revert t0.
  induction df as [|row df IH]; intro t0; [reflexivity|].
  cbn [map fold_left]. rewrite IH. f_equal.
  unfold warrant1_body. rewrite Hmaj, Hmin. reflexivity.
Qed.

(** X9: which street is entered as Street 1 does not matter to Warrant 1
    as long as the two street totals differ: exchanging the two volume
    columns leaves met, condition, hours_met, the explanation and the
    per-hour results unchanged (only the street names trade places). *)
Theorem evaluate_warrant1_swap_streets (df : list HourlyCount)
  (major_lanes minor_lanes : Z) (speed population : Q) (r : W1.result) :
  ~ series_sum (column_of df Street_1) == series_sum (column_of df Street_2) ->
  evaluate_warrant1 (Some df) major_lanes minor_lanes speed population = Ok r ->
  exists r',
    evaluate_warrant1 (Some (map swap_streets df)) major_lanes minor_lanes
      speed population = Ok r'
    /\ W1.met r' = W1.met r
    /\ W1.condition r' = W1.condition r
    /\ W1.hours_met r' = W1.hours_met r
    /\ W1.details r' = W1.details r
    /\ W1.hourly_results r' = W1.hourly_results r
    /\ W1.major_street r' = W1.minor_street r
    /\ W1.minor_street r' = W1.major_street r.
Proof.
  intros Hne Hr. unfold evaluate_warrant1 in *.
  rewrite length_map.
  destruct (List.length df <? 8)%nat.
  { injection Hr as <-. eexists. repeat split; reflexivity. }
  destruct (warrant1_threshold "condition_a" _ (get_threshold_percentage _ _ false))
    as [ta|]; [|discriminate].
  destruct (warrant1_threshold "condition_b" _ (get_threshold_percentage _ _ false))
    as [tb|]; [|discriminate].
  destruct (warrant1_threshold "condition_a" _ (get_threshold_percentage _ _ true))
    as [tac|]; [|discriminate].
  destruct (warrant1_threshold "condition_b" _ (get_threshold_percentage _ _ true))
    as [tbc|]; [|discriminate].
  cbn [bind] in *.
  unfold resolve_roles in *.
  destruct (column_of_swap df) as [E1 E2]. rewrite E1, E2.
  set (s1 := series_sum (column_of df Street_1)) in *.
  set (s2 := series_sum (column_of df Street_2)) in *.
  destruct (Qgeb s1 s2) eqn:E12.
  - apply Qgeb_le in E12.
    assert (E21 : Qgeb s2 s1 = false).
    { apply Qgeb_lt. destruct (Qlt_le_dec s2 s1) as [H|H]; [exact H|].
      exfalso. apply Hne. apply Qle_antisym; assumption. }
    rewrite E21.
    rewrite (warrant1_loop_swap ta tb tac tbc Street_1 Street_2
               Street_2 Street_1) by reflexivity.
    destruct (8 <=? _)%nat;
      [injection Hr as <-; eexists; repeat split; reflexivity|].
    destruct (8 <=? _)%nat;
      [injection Hr as <-; eexists; repeat split; reflexivity|].
    destruct (_ && _);
      injection Hr as <-; eexists; repeat split; reflexivity.
  - apply Qgeb_lt in E12.
    assert (E21 : Qgeb s2 s1 = true) by (apply Qgeb_le; lra).
    rewrite E21.
    rewrite (warrant1_loop_swap ta tb tac tbc Street_2 Street_1
               Street_1 Street_2) by reflexivity.
    destruct (8 <=? _)%nat;
      [injection Hr as <-; eexists; repeat split; reflexivity|].
    destruct (8 <=? _)%nat;
      [injection Hr as <-; eexists; repeat split; reflexivity|].
    destruct (_ && _);
      injection Hr as <-; eexists; repeat split; reflexivity.
Qed.

Lemma evaluate_warrant1_swap_streets_witness :
  exists r',
    evaluate_warrant1 (Some (map swap_streets (repeat (mkHour "07:00" 600 200) 8)))
      1 1 35 15000 = Ok r'
    /\ W1.met r' = Some true
    /\ W1.condition r' = Some "A"%string.
Proof.
  destruct (evaluate_warrant1_swap_streets
              (repeat (mkHour "07:00" 600 200) 8) 1 1 35 15000
              (W1.mkResult (Some true) (Some "A"%string) 8
                 [Lit "Condition A MET: "; Hole_int 8;
                  Lit " hours meet threshold ("; Hole_str "100"; Lit "%)"]
                 (Some ("100"%string, (500, 150), (750, 75)))
                 (Some (repeat (W1.mkHourly "07:00" 600 200 true false
                                  (500, 150) (750, 75)) 8))
                 (Some "Street 1"%string) (Some "Street 2"%string)))
    as (r' & Hr' & Hm & Hc & _).
  - vm_compute. discriminate.
  - vm_compute. reflexivity.
  - exists r'. split; [exact Hr'|]. split; assumption.
Defined.

(** ** Warrant 4 *)

Lemma above_mono (t : option Q) (a b : Q) :
  a <= b -> above t a = true -> above t b = true.
Proof.
  destruct t as [q|]; cbn [above]; [|discriminate].
  rewrite !Qgeb_le. intros. lra.
Qed.

(** X10: more pedestrians never turn a met Warrant 4 into anything else:
    with every other input fixed, if the verdict is met at some peak-hour
    and four-hour pedestrian counts, it is met at any larger counts. *)
Theorem evaluate_warrant4_more_pedestrians
  (traffic_df : option (list HourlyCount))
  (speed population ped_peak ped_4hr ped_peak' ped_4hr' gaps_per_hour
     dist_to_signal : Q) (r : W4.result) :
  ped_peak <= ped_peak' -> ped_4hr <= ped_4hr' ->
  evaluate_warrant4 traffic_df speed population ped_peak ped_4hr
    gaps_per_hour dist_to_signal = Ok r ->
  W4.met r = Some true ->
  exists r',
    evaluate_warrant4 traffic_df speed population ped_peak' ped_4hr'
      gaps_per_hour dist_to_signal = Ok r'
    /\ W4.met r' = Some true.
Proof.
  intros Hpk H4 Hr Hmet.
  destruct (Qlt_le_dec dist_to_signal 300) as [Hd|Hd].
  { destruct (evaluate_warrant4_gate_fails traffic_df speed population
                ped_peak ped_4hr gaps_per_hour dist_to_signal)
      as (r0 & Hr0 & Hm0); [left; exact Hd|].
    congruence. }
  destruct (Qlt_le_dec gaps_per_hour 60) as [Hg|Hg].
  2:{ destruct (evaluate_warrant4_gate_fails traffic_df speed population
                  ped_peak ped_4hr gaps_per_hour dist_to_signal)
        as (r0 & Hr0 & Hm0); [right; exact Hg|].
      congruence. }
  destruct traffic_df as [[|row df']|].
  - destruct (evaluate_warrant4_short (Some []) speed population ped_peak
                ped_4hr gaps_per_hour dist_to_signal Hd Hg)
      as (r0 & Hr0 & Hm0); [simpl; lia | congruence].
  - set (df := row :: df') in *.
    destruct (evaluate_warrant4_run (Some df) speed population ped_peak
                ped_4hr gaps_per_hour dist_to_signal df eq_refl
                ltac:(discriminate) Hd Hg)
      as (c4 & cp & top4 & pk & t4 & tp & r0 & Hc4 & Hcp & Htop & Hpk0 & Ht4
          & Htp & Hr0 & Hv).
    destruct (evaluate_warrant4_run (Some df) speed population ped_peak'
                ped_4hr' gaps_per_hour dist_to_signal df eq_refl
                ltac:(discriminate) Hd Hg)
      as (c4' & cp' & top4' & pk' & t4' & tp' & r' & Hc4' & Hcp' & Htop'
          & Hpk' & Ht4' & Htp' & Hr' & Hv').
    rewrite Hc4 in Hc4'. injection Hc4' as <-.
    rewrite Hcp in Hcp'. injection Hcp' as <-.
    rewrite Htop in Htop'. injection Htop' as <-.
    rewrite Hpk0 in Hpk'. injection Hpk' as <-.
    rewrite Ht4 in Ht4'. injection Ht4' as <-.
    rewrite Htp in Htp'. injection Htp' as <-.
    rewrite Hr in Hr0. injection Hr0 as <-.
    cbv zeta in Hv, Hv'.
    injection Hv as Hm _ _ _ _. injection Hv' as Hm' _ _ _ _.
    exists r'. split; [exact Hr'|].
    rewrite Hm'. rewrite Hm in Hmet. injection Hmet as Hmet.
    f_equal. apply orb_true_iff in Hmet. apply orb_true_iff.
    destruct Hmet as [H|H]; [left | right];
      eapply above_mono; eassumption.
  - destruct (evaluate_warrant4_short None speed population ped_peak
                ped_4hr gaps_per_hour dist_to_signal Hd Hg)
      as (r0 & Hr0 & Hm0); [exact I | congruence].
Qed.

Lemma evaluate_warrant4_more_pedestrians_witness :
  exists r',
    evaluate_warrant4 (Some (repeat (mkHour "07:00" 500 100) 4))
      30 20000 60 250 30 1000 = Ok r'
    /\ W4.met r' = Some true.
Proof.
  eapply (evaluate_warrant4_more_pedestrians
            (Some (repeat (mkHour "07:00" 500 100) 4)) 30 20000 50 200).
  - vm_compute. discriminate.
  - vm_compute. discriminate.
  - vm_compute. reflexivity.
  - reflexivity.
Defined.

(** ** The flag-gated warrants *)

(** X11: Warrant 5 is not applicable exactly when no school crossing is
    designated; otherwise it is met iff there are at least 20 children and
    fewer adequate gaps than minutes in the crossing period.  With fewer
    than 20 children the explanation names the child count, whatever the
    gaps. *)
Theorem evaluate_warrant5_verdict (school_crossing : bool)
  (school_children school_gaps crossing_period_minutes : Q) :
  let r := evaluate_warrant5 school_crossing school_children school_gaps
             crossing_period_minutes in
  (W5.met r = None <-> school_crossing = false)
  /\ (W5.met r = Some true
      <-> school_crossing = true /\ 20 <= school_children
          /\ school_gaps < crossing_period_minutes)
  /\ (W5.met r = Some false
      <-> school_crossing = true
          /\ (school_children < 20
              \/ crossing_period_minutes <= school_gaps))
  /\ (school_crossing = true -> school_children < 20 ->
      W5.details r
      = [Lit "NOT MET: "; Hole_num school_children;
         Lit " schoolchildren < 20 minimum"])
  /\ W5.children r = school_children /\ W5.gaps r = school_gaps.
Proof.
  unfold evaluate_warrant5.
  destruct school_crossing; cbn [negb];
    [|cbn; intuition (try discriminate; try congruence; try lra)].
  destruct (Qltb school_children 20) eqn:Ec;
    [apply Qltb_lt in Ec; cbn; intuition (try discriminate; try congruence; try lra)|].
  apply Qltb_ge in Ec.
  destruct (Qltb school_gaps crossing_period_minutes) eqn:Eg;
    [apply Qltb_lt in Eg | apply Qltb_ge in Eg]; cbn; intuition (try discriminate; try congruence; try lra).
Qed.

Lemma evaluate_warrant5_verdict_witness :
  W5.met (evaluate_warrant5_default true 25 20) = Some true.
Proof.
  apply (proj1 (proj2 (evaluate_warrant5_verdict true 25 20 30))).
  split; [reflexivity|]. split; [vm_compute; discriminate | reflexivity].
Defined.

(** X12: Warrant 6 is not applicable exactly when the intersection is not
    part of a coordinated system; otherwise it is met iff the spacing lies
    in [1000, 2640] ft, both ends included.  The progression speed is only
    echoed: it changes neither the verdict nor the explanation.  The
    engineering-judgment tag is present exactly on the applicable
    verdicts. *)
Theorem evaluate_warrant6_verdict (coordinated_system : bool)
  (signal_spacing progression_speed : Q) :
  let r := evaluate_warrant6 coordinated_system signal_spacing
             progression_speed in
  (W6.met r = None <-> coordinated_system = false)
  /\ (W6.met r = Some true
      <-> coordinated_system = true
          /\ 1000 <= signal_spacing /\ signal_spacing <= 2640)
  /\ (W6.engineering_judgment r = Some true <-> coordinated_system = true)
  /\ W6.progression_speed r = progression_speed
  /\ forall progression_speed',
       let r' := evaluate_warrant6 coordinated_system signal_spacing
                   progression_speed' in
       W6.met r' = W6.met r /\ W6.details r' = W6.details r.
Proof.
  unfold evaluate_warrant6.
  destruct coordinated_system; cbn [negb];
    [|cbn; intuition (try discriminate; try congruence; try lra)].
  destruct (Qle_bool 1000 signal_spacing) eqn:E1;
    [apply Qle_bool_iff in E1 | apply Qle_bool_false in E1];
    (destruct (Qle_bool signal_spacing 2640) eqn:E2;
     [apply Qle_bool_iff in E2 | apply Qle_bool_false in E2]);
    cbn; intuition (try discriminate; try congruence; try lra).
Qed.

Lemma evaluate_warrant6_verdict_witness :
  W6.met (evaluate_warrant6 true 2640 35) = Some true.
Proof.
  apply (proj1 (proj2 (evaluate_warrant6_verdict true 2640 35))).
  split; [reflexivity|]. split; vm_compute; discriminate.
Defined.

(** X13: Warrant 8 is not applicable exactly when network continuity is
    off; otherwise it is met iff the route is designated and future volumes
    are projected.  A designated route without projected volumes and an
    undesignated route get different explanations, and every verdict
    carries the engineering-judgment tag. *)
Theorem evaluate_warrant8_verdict (network_continuity route_designation
  future_volumes : bool) :
  let r := evaluate_warrant8 network_continuity route_designation
             future_volumes in
  (W8.met r = None <-> network_continuity = false)
  /\ (W8.met r = Some true
      <-> network_continuity = true /\ route_designation = true
          /\ future_volumes = true)
  /\ (network_continuity = true -> route_designation = true ->
      future_volumes = false ->
      W8.details r
      = [Lit "NOT MET: Route designated but projected volumes insufficient"])
  /\ (network_continuity = true -> route_designation = false ->
      W8.details r = [Lit "NOT MET: Not on designated route network"])
  /\ W8.engineering_judgment r = true.
Proof.
  destruct network_continuity, route_designation, future_volumes; cbn;
    intuition (try discriminate; try congruence; try lra).
Qed.

Lemma evaluate_warrant8_verdict_witness :
  W8.met (evaluate_warrant8 true true true) = Some true.
Proof.
  apply (proj1 (proj2 (evaluate_warrant8_verdict true true true))).
  repeat split.
Defined.

(** X14: Warrant 9 is not applicable exactly when no grade crossing is
    nearby.  With a crossing, a queuing distance over 140 ft gives not met
    with the distance message, whatever the train frequency and the
    preemption flag; the verdict is met iff the distance is at most 140 ft,
    at least one train runs per day and preemption is needed. *)
Theorem evaluate_warrant9_verdict (railroad_crossing : bool)
  (train_frequency queuing_distance : Q) (preemption_needed : bool) :
  let r := evaluate_warrant9 railroad_crossing train_frequency
             queuing_distance preemption_needed in
  (W9.met r = None <-> railroad_crossing = false)
  /\ (railroad_crossing = true -> 140 < queuing_distance ->
      W9.met r = Some false
      /\ W9.details r
         = [Lit "NOT MET: Distance ("; Hole_num queuing_distance;
            Lit " ft) exceeds 140 ft maximum"])
  /\ (W9.met r = Some true
      <-> railroad_crossing = true /\ queuing_distance <= 140
          /\ 0 < train_frequency /\ preemption_needed = true).
Proof.
  unfold evaluate_warrant9.
  destruct railroad_crossing; cbn [negb];
    [|cbn; intuition (try discriminate; try congruence; try lra)].
  destruct (Qltb 140 queuing_distance) eqn:Ed;
    [apply Qltb_lt in Ed; cbn; intuition (try discriminate; try congruence; try lra)|].
  apply Qltb_ge in Ed.
  destruct (Qltb 0 train_frequency) eqn:Et;
    [apply Qltb_lt in Et | apply Qltb_ge in Et];
    destruct preemption_needed; cbn; intuition (try discriminate; try congruence; try lra).
Qed.

Lemma evaluate_warrant9_verdict_witness :
  W9.met (evaluate_warrant9 true 10 150 true) = Some false
  /\ W9.details (evaluate_warrant9 true 10 150 true)
     = [Lit "NOT MET: Distance ("; Hole_num 150;
        Lit " ft) exceeds 140 ft maximum"].
Proof.
  apply (proj1 (proj2 (evaluate_warrant9_verdict true 10 150 true))).
  - reflexivity.
  - reflexivity.
Defined.

(** ** Tiers *)

(** X15: Warrants 2, 3 and 7 pick their tier exactly as
    [get_threshold_percentage] does for Warrant 1; Warrant 4, with its
    35 mph cutoff, picks a different tier exactly when the speed is over 35
    and at most 40 mph and the population is at least 10000, and then it is
    the reduced one. *)
Theorem tier_selection_agreement (speed population : Q) :
  curve_pct speed population
  = get_threshold_percentage speed population false
  /\ (warrant4_pct speed population <> curve_pct speed population
      <-> 35 < speed /\ speed <= 40 /\ 10000 <= population)
  /\ (warrant4_pct speed population <> curve_pct speed population ->
      warrant4_pct speed population = "70"%string).
Proof.
  unfold curve_pct, get_threshold_percentage, warrant4_pct.
  destruct (Qltb 40 speed) eqn:E40;
    [apply Qltb_lt in E40 | apply Qltb_ge in E40];
    (destruct (Qltb 35 speed) eqn:E35;
     [apply Qltb_lt in E35 | apply Qltb_ge in E35]);
    (destruct (Qltb population 10000) eqn:Ep;
     [apply Qltb_lt in Ep | apply Qltb_ge in Ep]);
    cbn; intuition (try discriminate; try congruence; try lra).
Qed.

(** ** The status column *)

Lemma contains_check_iff (result : option (option bool)) :
  contains "✓" (get_status result) = is_met result.
Proof.
  destruct result as [[[|]|]|]; vm_compute; reflexivity.
Qed.

(** X16: the number of warrants announced as satisfied is the number of
    verdicts whose met is True: not-applicable and not-met verdicts, and a
    missing result, are never counted; and it is positive iff some verdict
    is met. *)
Theorem met_count_counts_met (results : list (option (option bool))) :
  met_count (map get_status results) = List.length (filter is_met results)
  /\ ((0 < met_count (map get_status results))%nat
      <-> In (Some (Some true)) results).
Proof.
  assert (E : met_count (map get_status results)
              = List.length (filter is_met results)).
  { unfold met_count. induction results as [|r rs IH]; [reflexivity|].
    cbn [map filter]. rewrite contains_check_iff.
    destruct (is_met r); cbn [List.length]; rewrite IH; reflexivity. }
  split; [exact E|]. rewrite E. split.
  - intro H.
    destruct (filter is_met results) as [|r rs] eqn:Ef; [simpl in H; lia|].
    assert (Hin : In r (filter is_met results))
      by (rewrite Ef; left; reflexivity).
    apply filter_In in Hin. destruct Hin as [Hin Hm].
    destruct r as [[[|]|]|]; try discriminate. exact Hin.
  - intro Hin.
    assert (Hf : In (Some (Some true)) (filter is_met results))
      by (apply filter_In; split; [exact Hin | reflexivity]).
    destruct (filter is_met results); [destruct Hf | simpl; lia].
Qed.

(** ** The tables under the keys the evaluators build *)

Lemma warrant1_threshold_positive (cond : string) (lk : lane_key)
  (pct : string) :
  cond = "condition_a"%string \/ cond = "condition_b"%string ->
  In lk [(1, 1)%Z; (1, 2)%Z; (2, 1)%Z; (2, 2)%Z] ->
  In pct ["100"%string; "80"%string; "70"%string; "56"%string] ->
  exists t, warrant1_threshold cond lk pct = Ok t /\ 0 < fst t /\ 0 < snd t.
Proof.
  intros [-> | ->] Hlk Hpct; each_key Hlk; each_key Hpct;
    (eexists; split; [reflexivity | split; reflexivity]).
Qed.

(** X17: no lookup the evaluators make can miss, whatever the lane counts
    (anything but 1 lane counts as 2+), speed and population: both
    Warrant 1 pairs exist at the primary and the combination tier, with
    positive entries; the Warrant 2 and 3 curves and both Warrant 4 curves
    exist, have points, strictly increasing major_vph and thresholds that
    never go up. *)
Theorem table_lookups_total (major_lanes minor_lanes : Z)
  (speed population : Q) (is_combination : bool) :
  let lk := get_lane_key major_lanes minor_lanes in
  let pct := get_threshold_percentage speed population is_combination in
  (exists ta tb,
      warrant1_threshold "condition_a" lk pct = Ok ta
      /\ warrant1_threshold "condition_b" lk pct = Ok tb
      /\ 0 < fst ta /\ 0 < snd ta /\ 0 < fst tb /\ 0 < snd tb)
  /\ (exists c2 c3 c4 cp,
         curve_for WARRANT2_CURVES (curve_pct speed population) lk = Ok c2
         /\ curve_for WARRANT3_CURVES (curve_pct speed population) lk = Ok c3
         /\ lookup String.eqb WARRANT4_CURVES
              (String.append "four_hour_" (warrant4_pct speed population))
            = Ok c4
         /\ lookup String.eqb WARRANT4_CURVES
              (String.append "peak_hour_" (warrant4_pct speed population))
            = Ok cp
         /\ forall c, In c [c2; c3; c4; cp] ->
              c <> [] /\ strictly_increasing_x c /\ nonincreasing_y c).
Proof.
  intros lk pct. split.
  - destruct (warrant1_threshold_positive "condition_a" lk pct)
      as (ta & Hta & Ha1 & Ha2);
      [tauto | apply get_lane_key_cases
       | apply get_threshold_percentage_cases |].
    destruct (warrant1_threshold_positive "condition_b" lk pct)
      as (tb & Htb & Hb1 & Hb2);
      [tauto | apply get_lane_key_cases
       | apply get_threshold_percentage_cases |].
    exists ta, tb. repeat split; assumption.
  - destruct (warrant2_curve_total (curve_pct speed population) lk)
      as (c2 & Hc2 & Hg2);
      [apply curve_pct_cases | apply get_lane_key_cases |].
    destruct (warrant3_curve_total (curve_pct speed population) lk)
      as (c3 & Hc3 & Hg3);
      [apply curve_pct_cases | apply get_lane_key_cases |].
    destruct (warrant4_curve_total "four_hour_" (warrant4_pct speed population))
      as (c4 & Hc4 & Hg4); [tauto | apply warrant4_pct_cases |].
    destruct (warrant4_curve_total "peak_hour_" (warrant4_pct speed population))
      as (cp & Hcp & Hgp); [tauto | apply warrant4_pct_cases |].
    exists c2, c3, c4, cp. do 4 (split; [assumption|]).
    intros c [<-|[<-|[<-|[<-|[]]]]];
      match goal with H : good_curve _ ?c |- ?c <> [] /\ _ =>
        destruct H as (H1 & H2 & H3 & _); repeat split; assumption
      end.
Qed.

Lemma good_curve_nonincreasing (lo : Q) (c : list point) (a b ta tb : Q) :
  good_curve lo c ->
  a <= b ->
  interpolate_threshold c a = Ok (Some ta) ->
  interpolate_threshold c b = Ok (Some tb) ->
  tb <= ta /\ lo <= tb.
Proof.
  intros (Hne & Hs & Hy & Hb) Hab Ha Hbv.
  destruct c as [|[x1 y1] rest]; [contradiction|].
  assert (Hasc := strictly_increasing_ascending _ Hs).
  rewrite (interpolate_threshold_sorted _ x1 y1 rest a
             (sorted_by_x_fixed _ Hasc)) in Ha.
  rewrite (interpolate_threshold_sorted _ x1 y1 rest b
             (sorted_by_x_fixed _ Hasc)) in Hbv.
  destruct (Qltb a x1) eqn:Ea; [discriminate|].
  destruct (Qltb b x1) eqn:Eb; [discriminate|].
  injection Ha as <-. injection Hbv as <-.
  apply Qltb_ge in Ea, Eb.
  split; [apply walk_nonincreasing | apply walk_lower_bound]; assumption.
Qed.

(** X18: on every curve an evaluator can look up, a larger major volume
    never gets a larger threshold, and every threshold is positive. *)
Theorem table_thresholds_nonincreasing (major_lanes minor_lanes : Z)
  (speed population : Q) (curve : list point) (a b ta tb : Q) :
  curve_for WARRANT2_CURVES (curve_pct speed population)
    (get_lane_key major_lanes minor_lanes) = Ok curve
  \/ curve_for WARRANT3_CURVES (curve_pct speed population)
       (get_lane_key major_lanes minor_lanes) = Ok curve
  \/ lookup String.eqb WARRANT4_CURVES
       (String.append "four_hour_" (warrant4_pct speed population)) = Ok curve
  \/ lookup String.eqb WARRANT4_CURVES
       (String.append "peak_hour_" (warrant4_pct speed population)) = Ok curve ->
  a <= b ->
  interpolate_threshold curve a = Ok (Some ta) ->
  interpolate_threshold curve b = Ok (Some tb) ->
  tb <= ta /\ 0 < tb.
Proof.
  intros Hc Hab Ha Hb.
  assert (Hg : exists lo, 0 < lo /\ good_curve lo curve).
  { destruct Hc as [Hc|[Hc|[Hc|Hc]]].
    - destruct (warrant2_curve_total (curve_pct speed population)
                  (get_lane_key major_lanes minor_lanes))
        as (c & Hc' & Hg);
        [apply curve_pct_cases | apply get_lane_key_cases |].
      rewrite Hc in Hc'. injection Hc' as <-.
      exists 28. split; [reflexivity | exact Hg].
    - destruct (warrant3_curve_total (curve_pct speed population)
                  (get_lane_key major_lanes minor_lanes))
        as (c & Hc' & Hg);
        [apply curve_pct_cases | apply get_lane_key_cases |].
      rewrite Hc in Hc'. injection Hc' as <-.
      exists 70. split; [reflexivity | exact Hg].
    - destruct (warrant4_curve_total "four_hour_"
                  (warrant4_pct speed population))
        as (c & Hc' & Hg); [tauto | apply warrant4_pct_cases |].
      rewrite Hc in Hc'. injection Hc' as <-.
      exists 70. split; [reflexivity | exact Hg].
    - destruct (warrant4_curve_total "peak_hour_"
                  (warrant4_pct speed population))
        as (c & Hc' & Hg); [tauto | apply warrant4_pct_cases |].
      rewrite Hc in Hc'. injection Hc' as <-.
      exists 70. split; [reflexivity | exact Hg]. }
  destruct Hg as (lo & Hlo & Hg).
  destruct (good_curve_nonincreasing lo curve a b ta tb Hg Hab Ha Hb)
    as [H1 H2].
  split; [exact H1 | lra].
Qed.

Lemma table_thresholds_nonincreasing_witness :
  exists ta tb,
    interpolate_threshold
      [(300, 115); (400, 100); (500, 90); (600, 80); (700, 70); (800, 60);
       (900, 50); (1000, 40)] 350 = Ok (Some ta)
    /\ interpolate_threshold
         [(300, 115); (400, 100); (500, 90); (600, 80); (700, 70); (800, 60);
          (900, 50); (1000, 40)] 2000 = Ok (Some tb)
    /\ tb <= ta /\ 0 < tb.
Proof.
  do 2 eexists.
  split; [vm_compute; reflexivity|]. split; [vm_compute; reflexivity|].
  eapply (table_thresholds_nonincreasing 1 1 35 15000 _ 350 2000).
  - left. reflexivity.
  - vm_compute. discriminate.
  - vm_compute. reflexivity.
  - vm_compute. reflexivity.
Defined.

(** ** Per-hour evidence of Warrant 1 *)

Lemma warrant1_loop_rows (ta tb tac tbc : Q * Q) (major_col minor_col : column)
  (df : list HourlyCount) (t0 : W1.tally) :
  W1.rows (fold_left (warrant1_body ta tb tac tbc major_col minor_col) df t0)
  = W1.rows t0
    ++ map (fun row =>
              W1.mkHourly (Hour row) (cell row major_col) (cell row minor_col)
                (meets ta (cell row major_col) (cell row minor_col))
                (meets tb (cell row major_col) (cell row minor_col))
                ta tb) df.
Proof.
  revert t0. induction df as [|row df IH]; intro t0.
  - simpl. rewrite app_nil_r. reflexivity.
  - cbn [fold_left map]. rewrite IH.
    unfold warrant1_body. cbn [W1.rows].
    rewrite <- app_assoc. reflexivity.
Qed.

Lemma count_flagged {H : Type} (test : HourlyCount -> bool) (flag : H -> bool)
  (mk : HourlyCount -> H) (df : list HourlyCount) :
  (forall row, flag (mk row) = test row) ->
  List.length (filter flag (map mk df)) = count_hours test df.
Proof.
  intro Hf. unfold count_hours.
  induction df as [|row df IH]; [reflexivity|].
  cbn [map filter]. rewrite Hf.
  destruct (test row); cbn [List.length]; rewrite IH; reflexivity.
Qed.

(** X19: on at least 8 rows the per-hour results of Warrant 1 are the
    evidence of its decision: one entry per row in input order, carrying
    the row's label and its major and minor volumes as resolved; the
    entries flagged meets_a (meets_b) are as many as the Condition-A
    (Condition-B) hours the decision counted, each flag is the pair test on
    the entry's own volumes and thresholds, and hours_met never exceeds the
    number of rows. *)
Theorem evaluate_warrant1_hourly_evidence (df : list HourlyCount)
  (major_lanes minor_lanes : Z) (speed population : Q) :
  (8 <= List.length df)%nat ->
  let lk := get_lane_key major_lanes minor_lanes in
  let pct := get_threshold_percentage speed population false in
  let roles := resolve_roles df in
  exists ta tb r hs,
    warrant1_threshold "condition_a" lk pct = Ok ta
    /\ warrant1_threshold "condition_b" lk pct = Ok tb
    /\ evaluate_warrant1 (Some df) major_lanes minor_lanes speed population
       = Ok r
    /\ W1.hourly_results r = Some hs
    /\ W1.threshold_used r = Some (pct, ta, tb)
    /\ map W1.hour hs = map Hour df
    /\ map W1.major_vol hs = column_of df (fst roles)
    /\ map W1.minor_vol hs = column_of df (snd roles)
    /\ List.length (filter W1.meets_a hs)
       = count_hours (hour_meets ta roles) df
    /\ List.length (filter W1.meets_b hs)
       = count_hours (hour_meets tb roles) df
    /\ (forall h, In h hs ->
        W1.thresh_a h = ta /\ W1.thresh_b h = tb
        /\ W1.meets_a h = meets ta (W1.major_vol h) (W1.minor_vol h)
        /\ W1.meets_b h = meets tb (W1.major_vol h) (W1.minor_vol h))
    /\ (W1.hours_met r <= List.length df)%nat.
Proof.
  intros Hlen lk pct roles. subst lk pct.
  destruct (evaluate_warrant1_run df major_lanes minor_lanes speed population
              Hlen) as (ta & tb & tac & tbc & r & Hta & Htb & Htac & Htbc
                        & Hr & Hv).
  exists ta, tb, r.
  assert (Hrows : W1.hourly_results r
                  = Some (map (fun row =>
                                 W1.mkHourly (Hour row) (cell row (fst roles))
                                   (cell row (snd roles))
                                   (meets ta (cell row (fst roles))
                                      (cell row (snd roles)))
                                   (meets tb (cell row (fst roles))
                                      (cell row (snd roles)))
                                   ta tb) df)
                  /\ W1.threshold_used r
                     = Some (get_threshold_percentage speed population false,
                             ta, tb)).
  { clear Hv. unfold evaluate_warrant1 in Hr.
    apply Nat.ltb_ge in Hlen. rewrite Hlen in Hr.
    rewrite Hta, Htb, Htac, Htbc in Hr. cbn [bind] in Hr.
    fold roles in Hr. destruct roles as [major_col minor_col].
    rewrite warrant1_loop_rows in Hr. cbn [W1.rows app fst snd] in *.
    destruct (8 <=? _)%nat; [injection Hr as <-; split; reflexivity|].
    destruct (8 <=? _)%nat; [injection Hr as <-; split; reflexivity|].
    destruct (_ && _); injection Hr as <-; split; reflexivity. }
  destruct Hrows as [Hrows Hthr].
  eexists. do 3 (split; [eassumption|]).
  split; [exact Hrows|]. split; [exact Hthr|].
  split; [rewrite map_map; reflexivity|].
  split; [rewrite map_map; reflexivity|].
  split; [rewrite map_map; reflexivity|].
  split; [apply count_flagged; intro row; reflexivity|].
  split; [apply count_flagged; intro row; reflexivity|].
  split.
  { intros h Hin. apply in_map_iff in Hin. destruct Hin as (row & <- & _).
    repeat split. }
  cbv zeta in Hv. fold roles in Hv.
  assert (H1 := count_hours_le_length (hour_meets ta roles) df).
  assert (H2 := count_hours_le_length (hour_meets tb roles) df).
  assert (H3 := count_hours_le_length (hour_meets tac roles) df).
  assert (H4 := count_hours_le_length (hour_meets tbc roles) df).
  destruct (8 <=? _)%nat; [injection Hv as _ _ ->; exact H1|].
  destruct (8 <=? _)%nat; [injection Hv as _ _ ->; exact H2|].
  destruct (_ && _); injection Hv as _ _ ->; lia.
Qed.

Lemma evaluate_warrant1_hourly_evidence_witness :
  exists r hs,
    evaluate_warrant1 (Some (repeat (mkHour "07:00" 600 200) 8)) 1 1 35 15000
    = Ok r
    /\ W1.hourly_results r = Some hs
    /\ map W1.hour hs = map Hour (repeat (mkHour "07:00" 600 200) 8).
Proof.
  destruct (evaluate_warrant1_hourly_evidence
              (repeat (mkHour "07:00" 600 200) 8) 1 1 35 15000)
    as (ta & tb & r & hs & _ & _ & Hr & Hhs & _ & Hmap & _).
  - simpl. lia.
  - exists r, hs. repeat split; assumption.
Defined.

(** ** Warrant 7 and the crash count *)

(** X20: Warrant 7 only asks whether the correctable crashes reach 5: with
    every other input fixed, any two counts of at least 5 give the same
    verdict, the same three condition flags and the same volume hours. *)
Theorem evaluate_warrant7_crashes_beyond_five
  (traffic_df : option (list HourlyCount)) (major_lanes minor_lanes : Z)
  (speed population crashes crashes' : Q) (alternatives_tried : bool)
  (r : W7.result) :
  5 <= crashes -> 5 <= crashes' ->
  evaluate_warrant7 traffic_df major_lanes minor_lanes speed population
    crashes alternatives_tried = Ok r ->
  exists r',
    evaluate_warrant7 traffic_df major_lanes minor_lanes speed population
      crashes' alternatives_tried = Ok r'
    /\ W7.met r' = W7.met r
    /\ W7.condition_a r' = W7.condition_a r
    /\ W7.condition_b r' = W7.condition_b r
    /\ W7.condition_c r' = W7.condition_c r
    /\ W7.hours_meeting_volume r' = W7.hours_meeting_volume r
    /\ W7.correctable_crashes r' = crashes'.
Proof.
  intros Hc Hc' Hr. unfold evaluate_warrant7 in *.
  destruct alternatives_tried; cbn [negb] in *;
    [|injection Hr as <-; eexists; repeat split; reflexivity].
  apply Qltb_ge in Hc, Hc'. rewrite Hc in Hr. rewrite Hc'.
  destruct traffic_df as [df|];
    [|injection Hr as <-; eexists; repeat split; reflexivity].
  destruct (List.length df <? 8)%nat;
    [injection Hr as <-; eexists; repeat split; reflexivity|].
  destruct (warrant1_threshold "condition_a" _ "80") as [ta|];
    [|discriminate].
  destruct (warrant1_threshold "condition_b" _ "80") as [tb|];
    [|discriminate].
  destruct (curve_for WARRANT3_CURVES _ _) as [curve|]; [|discriminate].
  cbn [bind] in *.
  destruct (resolve_roles df) as [major_col minor_col].
  destruct (foldM _ df (0%nat, [])) as [[n hs]|]; [|discriminate].
  cbn [bind] in *.
  destruct (8 <=? n)%nat;
    injection Hr as <-; eexists; repeat split; reflexivity.
Qed.

Lemma evaluate_warrant7_crashes_beyond_five_witness :
  exists r',
    evaluate_warrant7 (Some (repeat (mkHour "07:00" 650 130) 8)) 1 1 35 15000
      12 true = Ok r'
    /\ W7.met r' = Some true.
Proof.
  destruct (evaluate_warrant7 (Some (repeat (mkHour "07:00" 650 130) 8)) 1 1
              35 15000 5 true) as [r|e] eqn:Hr;
    [|vm_compute in Hr; discriminate].
  destruct (evaluate_warrant7_crashes_beyond_five
              (Some (repeat (mkHour "07:00" 650 130) 8)) 1 1 35 15000 5 12
              true r) as (r' & Hr' & Hm & _).
  - vm_compute. discriminate.
  - vm_compute. discriminate.
  - exact Hr.
  - exists r'. split; [exact Hr'|].
    rewrite Hm. vm_compute in Hr. injection Hr as <-. reflexivity.
Defined.
